(** * Binary readers of the neurophysiology recording formats

    A shallow embedding of the two reader modules of the repository,
    [phypno/ioeeg/blackrock.py] (continuous [.nsX] and event [.nev] files)
    and [phypno/ioeeg/ktlx.py] (segmented [.erd]/[.stc]/[.snc]/[.ent]
    recordings), followed by the properties of these readers.

    Conventions of the embedding.
    - A file is the list of its bytes; an open handle is the file together
      with the current position, threaded through a state-and-exception
      monad [IO].
    - A Python exception is a constructor of [exn]; a call that may raise
      returns a [result].
    - Python integers are [Z].  Python floats are rationals ([Q]): the
      readers only divide and multiply small integers, and the rounding of
      the binary64 results is not modelled.
    - [struct.unpack] and [numpy.fromfile] use the byte order of the host;
      the formats are written and read on little-endian machines and the
      embedding fixes little-endian.
    - The package runs under Python 3: [bytes] and [str] are two types.  A
      [bytes] object is a [list byte]; a [str] is represented by its UTF-8
      encoding, so that [bytes.decode('utf-8')] is validation. *)

From Stdlib Require Import ZArith QArith Strings.Byte Strings.String Strings.Ascii.
From stdpp Require Import base option list gmap strings.

#[local] Open Scope string_scope.
#[local] Open Scope Z_scope.
#[local] Open Scope list_scope.

(** ** Exceptions and results *)

Module Py.

Inductive exn : Set :=
| AssertionError
| AttributeError
| EOFError
| IOError            (* OSError and its subclasses, FileNotFoundError included *)
| IndexError
| KeyError
| NameError          (* UnboundLocalError included *)
| NotImplementedError
| StructError        (* struct.error *)
| TypeError
| UnicodeDecodeError
| ValueError
| ZeroDivisionError
| LoopBound.         (* no Python exception: the bound given to the model of
                        a [while] loop was reached (never the case, see
                        [data_packets_bound] and [read_notes_first_round]) *)

Inductive result (A : Type) : Type :=
| Ok (a : A)
| Raise (e : exn).
Arguments Ok {A} a.
Arguments Raise {A} e.

#[global] Instance result_ret : MRet result := @Ok.
#[global] Instance result_bind : MBind result := fun A B k r =>
  match r with
  | Ok a => k a
  | Raise e => Raise e
  end.
#[global] Instance result_fmap : FMap result := fun A B g r =>
  match r with
  | Ok a => Ok (g a)
  | Raise e => Raise e
  end.

(** [assert c] *)
Definition assert (c : bool) : result unit :=
  if c then Ok tt else Raise AssertionError.

(** [l[i]] on a Python sequence: a negative index counts from the end. *)
Definition getitem {A} (l : list A) (i : Z) : result A :=
  let n := Z.of_nat (length l) in
  if (i <? - n) || (n <=? i) then Raise IndexError
  else match l !! Z.to_nat (if i <? 0 then i + n else i) with
       | Some x => Ok x
       | None => Raise IndexError
       end.

(** [l[i] = x], with the same index rule. *)
Definition setitem {A} (l : list A) (i : Z) (x : A) : result (list A) :=
  let n := Z.of_nat (length l) in
  if (i <? - n) || (n <=? i) then Raise IndexError
  else Ok (<[Z.to_nat (if i <? 0 then i + n else i) := x]> l).

(** [l[a:b]] for [0 <= a <= b]: the slice is cut at the end of [l]. *)
Definition slice {A} (a b : nat) (l : list A) : list A :=
  take (b - a) (drop a l).

(** Integer true division [a / b] (a float, here a rational). *)
Definition truediv (a b : Z) : result Q :=
  if b =? 0 then Raise ZeroDivisionError else Ok (inject_Z a / inject_Z b)%Q.

(** [int(a / b)] for integers [a] and [b]: the quotient truncated towards
    zero.  (The float [a / b] is the correctly rounded quotient; for the
    magnitudes met here, [|a| < 2^53], rounding never reaches the next
    integer, so truncating the float truncates the exact quotient.) *)
Definition int_truediv (a b : Z) : result Z :=
  if b =? 0 then Raise ZeroDivisionError else Ok (Z.quot a b).

(** [chr(cp)] for [0 <= cp < 2048], as UTF-8. *)
Definition chr (cp : Z) : string :=
  if cp <? 128 then String (ascii_of_N (Z.to_N cp)) EmptyString
  else String (ascii_of_N (Z.to_N (192 + cp / 64)))
         (String (ascii_of_N (Z.to_N (128 + cp mod 64))) EmptyString).

End Py.
Export Py.

(** ** Bytes and [struct.unpack] *)

Module Struct.

Definition byte_val (b : byte) : Z := Z.of_N (Byte.to_N b).

Definition byte_of_Z (z : Z) : byte :=
  default "000"%byte (Byte.of_N (Z.to_N (z mod 256))).

(** The unsigned little-endian value of a byte string. *)
Fixpoint le_combine (bs : list byte) : Z :=
  match bs with
  | [] => 0
  | b :: bs' => byte_val b + 256 * le_combine bs'
  end.

(** The [n] low bytes of [z], least significant first. *)
Fixpoint le_split (n : nat) (z : Z) : list byte :=
  match n with
  | O => []
  | S n' => byte_of_Z z :: le_split n' (z / 256)
  end.

(** Two's complement reading of an unsigned [8 * n]-bit value. *)
Definition to_signed (n : nat) (u : Z) : Z :=
  if u <? 2 ^ (8 * Z.of_nat n - 1) then u else u - 2 ^ (8 * Z.of_nat n).

(** [unpack(c, bs)[0]] for one integer code of [n] bytes: [struct.error]
    unless [bs] has exactly [n] bytes. *)
Definition unpack_int (signed : bool) (n : nat) (bs : list byte) : result Z :=
  if (length bs =? n)%nat
  then Ok (if signed then to_signed n (le_combine bs) else le_combine bs)
  else Raise StructError.

Definition unpack_b := unpack_int true 1.
Definition unpack_B := unpack_int false 1.
Definition unpack_h := unpack_int true 2.
Definition unpack_H := unpack_int false 2.
Definition unpack_i := unpack_int true 4.
Definition unpack_I := unpack_int false 4.
Definition unpack_l := unpack_int true 8.

(** Cut [bs] in consecutive pieces of [n] bytes ([count] of them). *)
Fixpoint chunks (n count : nat) (bs : list byte) : list (list byte) :=
  match count with
  | O => []
  | S c => take n bs :: chunks n c (drop n bs)
  end.

(** [unpack(c * count, bs)] for an integer code [c] of [n] bytes (the codes
    used here need no padding between equal items). *)
Definition unpack_ints (signed : bool) (n count : nat) (bs : list byte)
  : result (list Z) :=
  if (length bs =? n * count)%nat
  then Ok ((fun c => if signed then to_signed n (le_combine c) else le_combine c)
             <$> chunks n count bs)
  else Raise StructError.

(** [unpack('c' * count, bs)]: the tuple of the single bytes. *)
Definition unpack_chars (count : nat) (bs : list byte) : result (list byte) :=
  if (length bs =? count)%nat then Ok bs else Raise StructError.

End Struct.
Export Struct.

(** ** Text *)

Module Text.

(** Well-formed UTF-8, as the strict decoder of Python 3 accepts it: no
    overlong form, no surrogate, nothing above U+10FFFF. *)
Definition in_range (lo hi : Z) (b : byte) : bool :=
  (lo <=? byte_val b) && (byte_val b <=? hi).

Fixpoint utf8_valid (bs : list byte) : bool :=
  match bs with
  | [] => true
  | b0 :: r1 =>
    if in_range 0 127 b0 then utf8_valid r1
    else match r1 with
    | [] => false
    | b1 :: r2 =>
      if in_range 194 223 b0 then in_range 128 191 b1 && utf8_valid r2
      else match r2 with
      | [] => false
      | b2 :: r3 =>
        if in_range 224 239 b0 then
          (if byte_val b0 =? 224 then in_range 160 191 b1
           else if byte_val b0 =? 237 then in_range 128 159 b1
           else in_range 128 191 b1)
          && in_range 128 191 b2 && utf8_valid r3
        else match r3 with
        | [] => false
        | b3 :: r4 =>
          in_range 240 244 b0
          && (if byte_val b0 =? 240 then in_range 144 191 b1
              else if byte_val b0 =? 244 then in_range 128 143 b1
              else in_range 128 191 b1)
          && in_range 128 191 b2 && in_range 128 191 b3 && utf8_valid r4
        end
      end
    end
  end.

(** [bs.decode('utf-8')] *)
Definition decode_utf8 (bs : list byte) : result string :=
  if utf8_valid bs then Ok (string_of_list_byte bs) else Raise UnicodeDecodeError.

End Text.
Export Text.

(** ** Files *)

Module File.

(** An open file: its bytes and the position of the next read.  The position
    may lie past the end (a seek there is allowed, a read there is empty). *)
Record file : Type := mkfile { f_bytes : list byte; f_pos : nat }.

(** A computation on the handle opened by a [with open(...) as f] block. *)
Definition IO (A : Type) : Type := file -> result (A * file).

#[global] Instance IO_ret : MRet IO := fun A a f => Ok (a, f).
#[global] Instance IO_bind : MBind IO := fun A B k c f =>
  match c f with
  | Ok (a, f') => k a f'
  | Raise e => Raise e
  end.

(** A computation without access to the handle, run inside the block. *)
Definition lift {A} (r : result A) : IO A := fun f =>
  match r with
  | Ok a => Ok (a, f)
  | Raise e => Raise e
  end.

Definition raise {A} (e : exn) : IO A := fun _ => Raise e.

(** [f.read(n)]: at most [n] bytes, fewer at the end of the file; all the
    remaining bytes when [n] is negative. *)
Definition f_read (n : Z) : IO (list byte) := fun f =>
  let avail := drop (f_pos f) (f_bytes f) in
  let bs := if n <? 0 then avail else take (Z.to_nat n) avail in
  Ok (bs, mkfile (f_bytes f) (f_pos f + length bs)).

(** [f.tell()] *)
Definition f_tell : IO Z := fun f => Ok (Z.of_nat (f_pos f), f).

Inductive whence : Set := SEEK_SET | SEEK_CUR | SEEK_END.

(** [f.seek(offset, whence)]: a negative target is refused by the system. *)
Definition f_seek (offset : Z) (w : whence) : IO unit := fun f =>
  let target :=
    match w with
    | SEEK_SET => offset
    | SEEK_CUR => Z.of_nat (f_pos f) + offset
    | SEEK_END => Z.of_nat (length (f_bytes f)) + offset
    end in
  if target <? 0 then Raise IOError
  else Ok (tt, mkfile (f_bytes f) (Z.to_nat target)).

(** The length of the file behind the handle (it bounds the loops of the
    models). *)
Definition f_len : IO nat := fun f => Ok (length (f_bytes f), f).

(** The file system: the contents of the files that exist, by path. *)
Abbreviation filesystem := (gmap string (list byte)).

(** [with open(path) as f: body]. *)
Definition with_open {A} (fs : filesystem) (path : string) (body : IO A)
  : result A :=
  match fs !! path with
  | None => Raise IOError
  | Some bs => fst <$> body (mkfile bs 0)
  end.

End File.
Export File.


(** ** Dates *)

Module Datetime.

(** The two zone objects that [blackrock.py] imports from
    [..utils.timezone]. *)
Inductive tzinfo : Set := utc | Eastern.

Record datetime : Type := mkdatetime {
  year : Z; month : Z; day : Z; hour : Z; minute : Z; second : Z;
  microsecond : Z; tz : option tzinfo }.

Definition is_leap (y : Z) : bool :=
  (y mod 4 =? 0) && (negb (y mod 100 =? 0) || (y mod 400 =? 0)).

Definition days_in_month (y m : Z) : Z :=
  if m =? 2 then (if is_leap y then 29 else 28)
  else if (m =? 4) || (m =? 6) || (m =? 9) || (m =? 11) then 30 else 31.

(** [datetime(y, mo, d, h, mi, s, us, tzinfo)]: [ValueError] when a field is
    out of range. *)
Definition new_datetime (y mo d h mi s us : Z) (z : option tzinfo)
  : result datetime :=
  if (1 <=? y) && (y <=? 9999) && (1 <=? mo) && (mo <=? 12)
     && (1 <=? d) && (d <=? days_in_month y mo)
     && (0 <=? h) && (h <=? 23) && (0 <=? mi) && (mi <=? 59)
     && (0 <=? s) && (s <=? 59) && (0 <=? us) && (us <=? 999999)
  then Ok (mkdatetime y mo d h mi s us z)
  else Raise ValueError.

(** [d.replace(tzinfo=None)] *)
Definition replace_tzinfo_None (d : datetime) : datetime :=
  mkdatetime (year d) (month d) (day d) (hour d) (minute d) (second d)
             (microsecond d) None.

End Datetime.
Export Datetime.

(** ** The array operations used by the readers *)

Module Numpy.

(** A two-dimensional array: its shape and its rows. *)
Record array2 (A : Type) : Type := mkarray2 {
  nrows : nat; ncols : nat; rows : list (list A) }.
Arguments mkarray2 {A} _ _ _.
Arguments nrows {A} _.
Arguments ncols {A} _.
Arguments rows {A} _.

Inductive ndarray (A : Type) : Type :=
| Arr1 (v : list A)
| Arr2 (m : array2 A).
Arguments Arr1 {A} v.
Arguments Arr2 {A} m.

Definition shape {A} (a : ndarray A) : list nat :=
  match a with
  | Arr1 v => [length v]
  | Arr2 m => [nrows m; ncols m]
  end.

(** [fromfile(f, 'int16', count)]: the next [count] 16-bit signed items of
    the file, fewer when the file ends before; every complete item that is
    left when [count] is negative. *)
Definition fromfile_int16 (count : Z) : IO (list Z) := fun f =>
  let avail := drop (f_pos f) (f_bytes f) in
  let n_avail := (length avail / 2)%nat in
  let n := if count <? 0 then n_avail else (Z.to_nat count `min` n_avail)%nat in
  Ok ((fun c => to_signed 2 (le_combine c)) <$> chunks 2 n avail,
      mkfile (f_bytes f) (f_pos f + 2 * n)).

(** The [(r, c)] array whose entry [(i, j)] is item [i + r * j] of [dat]. *)
Definition column_major (dat : list Z) (r c : nat) : array2 Z :=
  mkarray2 r c
    ((fun i => (fun j => dat !!! (i + r * j)%nat) <$> seq 0 c) <$> seq 0 r).

(** [reshape(dat, (r, c), order='F')] for [0 <= r]: [ValueError] unless [dat]
    has [r * c] items; a negative [c] stands for the number of columns that
    fits the size of [dat]. *)
Definition reshape_F (dat : list Z) (r c : Z) : result (array2 Z) :=
  let size := Z.of_nat (length dat) in
  if c <? 0 then
    if (r =? 0) || negb (size mod r =? 0) then Raise ValueError
    else Ok (column_major dat (Z.to_nat r) (Z.to_nat (size / r)))
  else if size =? r * c then Ok (column_major dat (Z.to_nat r) (Z.to_nat c))
  else Raise ValueError.

(** [expand_dims(factor, 1) * dat] for [factor] as long as [dat] has rows:
    row [i] of [dat] times [factor[i]]. *)
Definition scale_rows (factor : list Q) (dat : array2 Z) : array2 Q :=
  mkarray2 (nrows dat) (ncols dat)
    (zip_with (fun c row => (fun x => c * inject_Z x)%Q <$> row)
              factor (rows dat)).

(** A channel selector: one index or a list of indices. *)
Inductive selector : Type :=
| ChanInt (i : Z)
| ChanList (l : list Z).

(** [data[chan, :]]: one row, a one-dimensional array, for an integer; the
    two-dimensional array of the chosen rows for a list.  [IndexError] for
    an index that is not in [-nrows, nrows). *)
Definition select_rows {A} (data : array2 A) (chan : selector)
  : result (ndarray A) :=
  match chan with
  | ChanInt i => Arr1 <$> getitem (rows data) i
  | ChanList l =>
      (fun rs => Arr2 (mkarray2 (length l) (ncols data) rs))
        <$> mapM (getitem (rows data)) l
  end.

End Numpy.
Export Numpy.

(** ** [os.path.splitext] *)

Module Path.

(** Index of the last occurrence of [c] in [p], or [-1]. *)
Fixpoint rfind_from (c : ascii) (p : string) (i : Z) (last : Z) : Z :=
  match p with
  | EmptyString => last
  | String a p' => rfind_from c p' (i + 1) (if Ascii.eqb a c then i else last)
  end.
Definition rfind (c : ascii) (p : string) : Z := rfind_from c p 0 (-1).

Fixpoint all_dots (s : string) : bool :=
  match s with
  | EmptyString => true
  | String a s' => Ascii.eqb a "." && all_dots s'
  end.

(** [splitext(p)]: the extension starts at the last dot of the last path
    component, unless only dots precede it there. *)
Definition splitext (p : string) : string * string :=
  let sepIndex := rfind "/" p in
  let dotIndex := rfind "." p in
  if (sepIndex <? dotIndex)
     && negb (all_dots (substring (Z.to_nat (sepIndex + 1))
                                  (Z.to_nat (dotIndex - (sepIndex + 1))) p))
  then (substring 0 (Z.to_nat dotIndex) p,
        substring (Z.to_nat dotIndex) (String.length p - Z.to_nat dotIndex) p)
  else (p, EmptyString).

End Path.
Export Path.

(** ** [blackrock.py] *)

Module BlackRockIO.

(** [_str]: the characters before the first NUL. *)
Fixpoint _str (t_in : string) : string :=
  match t_in with
  | EmptyString => EmptyString
  | String t rest => if Ascii.eqb t zero then EmptyString else String t (_str rest)
  end.

(** One entry of [ElectrodesInfo] in a continuous file. *)
Record electrode : Type := mkelectrode {
  Type_ : string;
  ElectrodeID : Z;
  Label : string;
  ConnectorBank : string;
  ConnectorPin : Z;
  MinDigiValue : Z;
  MaxDigiValue : Z;
  MinAnalogValue : Z;
  MaxAnalogValue : Z;
  AnalogUnits : string;
  HighFreqCorner : Z;
  HighFreqOrder : Z;
  HighFilterType : Z;
  LowFreqCorner : Z;
  LowFreqOrder : Z;
  LowFilterType : Z }.

(** The header dictionary of a continuous file.  [FileSpec] keeps the two
    version numbers instead of the text made of them. *)
Record nsx_hdr : Type := mknsx_hdr {
  FileTypeID : string;
  FileSpec : Z * Z;
  HeaderBytes : Z;
  SamplingLabel : string;
  TimeRes : Z;
  SamplingFreq : Z;
  DateTimeRaw : list Z;
  DateTime : datetime;
  ChannelCount : Z;
  ElectrodesInfo : list electrode;
  ChannelID : list Z;
  DataPoints : Z;
  BOData : Z }.

(** [_convert_factor] *)
Fixpoint _convert_factor (ElectrodesInfo : list electrode) : result (list Q) :=
  match ElectrodesInfo with
  | [] => Ok []
  | elec :: rest =>
      _ ← assert (MaxDigiValue elec =? - MinDigiValue elec);
      _ ← assert (MaxAnalogValue elec =? - MinAnalogValue elec);
      x ← truediv (MaxAnalogValue elec - MinAnalogValue elec)
                  (MaxDigiValue elec - MinDigiValue elec);
      factor ← _convert_factor rest;
      Ok (x :: factor)
  end.

(** [_read_nsx] *)
Definition _read_nsx (fs : filesystem) (filename : string) (BOData : Z)
    (factor : list Q) (begsam endsam : Z) : result (array2 Q) :=
  let n_chan := Z.of_nat (length factor) in
  dat ← with_open fs filename (
    _ ← f_seek BOData SEEK_SET;
    _ ← f_seek (n_chan * 2 * begsam) SEEK_CUR;
    let n_sam := endsam - begsam in
    dat ← fromfile_int16 (n_chan * n_sam);
    lift (reshape_F dat n_chan n_sam));
  Ok (scale_rows factor dat).

(** The eight 16-bit fields of a packed time stamp. *)
Definition unpack_time (bs : list byte) : result (list Z) :=
  unpack_ints false 2 8 bs.

(** [datetime(time[0], time[1], time[3], time[4], time[5], time[6], time[7],
    tzinfo)]: field 2, the day of the week, is not used, and field 7 fills
    the microseconds. *)
Definition datetime_of_time (time : list Z) (z : option tzinfo)
  : result datetime :=
  new_datetime (time !!! 0%nat) (time !!! 1%nat) (time !!! 3%nat)
               (time !!! 4%nat) (time !!! 5%nat) (time !!! 6%nat)
               (time !!! 7%nat) z.

(** One 66-byte record of the electrode table, the [idx]-th of [ExtHdr]. *)
Definition read_electrode (ExtHdr : list byte) (idx : nat) : result electrode :=
  let i1 := (idx * 66)%nat in
  ty ← decode_utf8 (slice i1 (i1 + 2) ExtHdr);
  _ ← assert (String.eqb ty "CC");
  id ← unpack_H (slice (i1 + 2) (i1 + 4) ExtHdr);
  label ← decode_utf8 (slice (i1 + 4) (i1 + 20) ExtHdr);
  bank ← unpack_B (slice (i1 + 20) (i1 + 21) ExtHdr);
  pin ← unpack_B (slice (i1 + 21) (i1 + 22) ExtHdr);
  mind ← unpack_h (slice (i1 + 22) (i1 + 24) ExtHdr);
  maxd ← unpack_h (slice (i1 + 24) (i1 + 26) ExtHdr);
  mina ← unpack_h (slice (i1 + 26) (i1 + 28) ExtHdr);
  maxa ← unpack_h (slice (i1 + 28) (i1 + 30) ExtHdr);
  units ← decode_utf8 (slice (i1 + 30) (i1 + 46) ExtHdr);
  hfc ← unpack_I (slice (i1 + 46) (i1 + 50) ExtHdr);
  hfo ← unpack_I (slice (i1 + 50) (i1 + 54) ExtHdr);
  hft ← unpack_H (slice (i1 + 54) (i1 + 56) ExtHdr);
  lfc ← unpack_I (slice (i1 + 56) (i1 + 60) ExtHdr);
  lfo ← unpack_I (slice (i1 + 60) (i1 + 64) ExtHdr);
  lft ← unpack_H (slice (i1 + 64) (i1 + 66) ExtHdr);
  Ok (mkelectrode ty id (_str label) (chr (bank + 65 - 1)) pin
                  mind maxd mina maxa (_str units) hfc hfo hft lfc lfo lft).

(** The loop over the data packets at the end of [_read_neuralcd].  [BOData]
    is [None] while the variable is unbound and [DataPoints] while the key
    is absent; [bound] limits the number of rounds. *)
Fixpoint data_packets (bound : nat) (n_chan EOF : Z)
    (BOData DataPoints : option Z) : IO (option Z * option Z) :=
  pos ← f_tell;
  if pos <? EOF then
    match bound with
    | O => raise LoopBound
    | S bound' =>
        b ← f_read 1;
        flag ← lift (unpack_B b);
        if negb (flag =? 1) then
          bo ← lift (from_option Ok (Raise NameError) BOData);
          n ← lift (int_truediv (EOF - bo) (n_chan * 2));
          mret (Some bo, Some n)
        else
          b ← f_read 4;
          Timestamp ← lift (unpack_I b);
          b ← f_read 4;
          DataPoints ← lift (unpack_I b);
          BOData ← f_tell;
          _ ← f_seek (DataPoints * n_chan * 2) SEEK_CUR;
          EOData ← f_tell;
          n ← lift (int_truediv (EOData - BOData) (n_chan * 2));
          data_packets bound' n_chan EOF (Some BOData) (Some n)
    end
  else mret (BOData, DataPoints).

Section Reader.

(** Not in the sources: the zone rules of [..utils.timezone].
    [astimezone d z] is [d.astimezone(z)]. *)
Context (astimezone : datetime -> tzinfo -> result datetime).

(** [_read_neuralcd] *)
Definition _read_neuralcd (fs : filesystem) (filename : string)
  : result nsx_hdr :=
  with_open fs filename (
    b ← f_read 8;
    FileTypeID ← lift (decode_utf8 b);
    _ ← lift (assert (String.eqb FileTypeID "NEURALCD"));
    BasicHdr ← f_read 306;
    filespec ← lift (unpack_ints true 1 2 (slice 0 2 BasicHdr));
    HeaderBytes ← lift (unpack_I (slice 2 6 BasicHdr));
    label ← lift (decode_utf8 (slice 6 22 BasicHdr));
    TimeRes ← lift (unpack_I (slice 282 286 BasicHdr));
    period ← lift (unpack_i (slice 278 282 BasicHdr));
    SamplingFreq ← lift (int_truediv TimeRes period);
    time ← lift (unpack_time (slice 286 302 BasicHdr));
    d ← lift (datetime_of_time time (Some utc));
    d' ← lift (astimezone d Eastern);
    ChannelCount ← lift (unpack_I (slice 302 306 BasicHdr));
    ExtHdr ← f_read (ChannelCount * 66);
    ElectrodesInfo ← lift (mapM (read_electrode ExtHdr)
                                (seq 0 (Z.to_nat ChannelCount)));
    EOexH ← f_tell;
    _ ← f_seek 0 SEEK_END;
    EOF ← f_tell;
    _ ← f_seek EOexH SEEK_SET;
    pos ← f_tell;
    if EOF <=? pos then raise EOFError
    else
      r ← data_packets (Z.to_nat EOF) ChannelCount EOF None None;
      BOData ← lift (from_option Ok (Raise NameError) r.1);
      DataPoints ← lift (from_option Ok (Raise KeyError) r.2);
      mret (mknsx_hdr FileTypeID (filespec !!! 0%nat, filespec !!! 1%nat)
              HeaderBytes (_str label) TimeRes SamplingFreq time
              (replace_tzinfo_None d') ChannelCount ElectrodesInfo
              (ElectrodeID <$> ElectrodesInfo) DataPoints BOData)).

(** A value stored in the dictionaries of an event file. *)
Inductive pyval : Type :=
| VInt (n : Z)
| VFloat (x : Q)
| VStr (s : string).

(** The header dictionary of an event file.  The comment keeps its bytes:
    their lossy decoding ([errors='replace'], which cannot raise) is not
    modelled. *)
Record nev_hdr : Type := mknev_hdr {
  nev_FileTypeID : string;
  nev_FileSpec : Z * Z;
  nev_Flags : Z;
  nev_HeaderOffset : Z;
  nev_PacketBytes : Z;
  nev_TimeRes : Z;
  nev_SampleRes : Z;
  nev_DateTimeRaw : list Z;
  nev_DateTime : datetime;
  nev_Comment : list byte;
  nev_DataDuration : Z;
  nev_DataDurationSec : Q;
  nev_ChannelID : list pyval }.

(** The override of the digital factor that overflows its field. *)
Definition DigitalFactor_overflow : Q := 152592547 # 1000.

(** The [NEUEVWAV] branch: the dictionary of a spike channel. *)
Definition read_NEUEVWAV (ExtendedHeader : list byte)
  : result (gmap string pyval) :=
  id ← unpack_H (slice 8 10 ExtendedHeader);
  bank ← getitem ExtendedHeader 10;
  pin ← getitem ExtendedHeader 11;
  df ← unpack_h (slice 12 14 ExtendedHeader);
  let DigitalFactor := if df =? 21516 then VFloat DigitalFactor_overflow
                       else VInt df in
  energy ← unpack_H (slice 14 16 ExtendedHeader);
  high ← unpack_h (slice 16 18 ExtendedHeader);
  low ← unpack_h (slice 18 20 ExtendedHeader);
  units ← getitem ExtendedHeader 20;
  wf ← getitem ExtendedHeader 21;
  Ok (<["WaveformBytes" := VInt (byte_val wf)]>
      (<["Units" := VInt (byte_val units)]>
      (<["LowThreshold" := VInt low]>
      (<["HighThreshold" := VInt high]>
      (<["EnergyThreshold" := VInt energy]>
      (<["DigitalFactor" := DigitalFactor]>
      (<["ConnectorPin" := VInt (byte_val pin)]>
      (<["ConnectorBank" := VStr (chr (byte_val bank + 64))]>
      (<["ElectrodeID" := VInt id]> ∅))))))))).

(** The [NEUEVFLT] branch: the filter fields, to be merged in an entry. *)
Definition read_NEUEVFLT (ExtendedHeader : list byte)
  : result (Z * gmap string pyval) :=
  id ← unpack_H (slice 8 10 ExtendedHeader);
  hfc ← unpack_I (slice 10 14 ExtendedHeader);
  hfo ← unpack_I (slice 14 18 ExtendedHeader);
  hft ← unpack_H (slice 18 20 ExtendedHeader);
  lfc ← unpack_I (slice 20 24 ExtendedHeader);
  lfo ← unpack_I (slice 24 28 ExtendedHeader);
  lft ← unpack_H (slice 28 30 ExtendedHeader);
  Ok (id - 1,
      <["LowFilterType" := VInt lft]>
      (<["LowFreqOrder" := VInt lfo]>
      (<["LowFreqCorner" := VInt lfc]>
      (<["HighFilterType" := VInt hft]>
      (<["HighFreqOrder" := VInt hfo]>
      (<["HighFreqCorner" := VInt hfc]> ∅)))))).

(** One round of the loop over the extended header: the packet updates the
    two lists. *)
Definition read_packet (ExtendedHeader : list byte)
    (st : list (gmap string pyval) * list (gmap string pyval))
  : result (list (gmap string pyval) * list (gmap string pyval)) :=
  let '(ElectrodesInfo, IOLabels) := st in
  PacketID ← decode_utf8 (slice 0 8 ExtendedHeader);
  if String.eqb PacketID "NEUEVWAV" then
    elec ← read_NEUEVWAV ExtendedHeader;
    Ok ((ElectrodesInfo ++ [elec])%list, IOLabels)
  else if String.eqb PacketID "NEUEVLBL" then
    id ← unpack_H (slice 8 10 ExtendedHeader);
    let ElectrodeID := id - 1 in
    s ← decode_utf8 (drop 10 ExtendedHeader);
    old ← getitem ElectrodesInfo ElectrodeID;
    info ← setitem ElectrodesInfo ElectrodeID
             (<["ElectrodeLabel" := VStr (_str s)]> old);
    Ok (info, IOLabels)
  else if String.eqb PacketID "NEUEVFLT" then
    '(ElectrodeID, elec) ← read_NEUEVFLT ExtendedHeader;
    old ← getitem ElectrodesInfo ElectrodeID;
    info ← setitem ElectrodesInfo ElectrodeID (elec ∪ old);
    Ok (info, IOLabels)
  else if String.eqb PacketID "DIGLABEL" then
    m ← getitem ExtendedHeader 24;
    s ← decode_utf8 (slice 8 25 ExtendedHeader);
    Ok (ElectrodesInfo,
        (IOLabels ++ [<["label" := VStr (_str s)]>
                      (<["mode" := VInt (byte_val m + 1)]> ∅)])%list)
  else Raise NotImplementedError.

(** The loop [for i in range(countExtHeader)]. *)
Fixpoint read_packets (count : nat)
    (st : list (gmap string pyval) * list (gmap string pyval))
  : IO (list (gmap string pyval) * list (gmap string pyval)) :=
  match count with
  | O => mret st
  | S count' =>
      ExtendedHeader ← f_read 32;
      st' ← lift (read_packet ExtendedHeader st);
      read_packets count' st'
  end.

(** [x['ElectrodeID']] *)
Definition get_ElectrodeID (x : gmap string pyval) : result pyval :=
  from_option Ok (Raise KeyError) (x !! "ElectrodeID").

(** [_read_neuralev] *)
Definition _read_neuralev (fs : filesystem) (filename : string)
  : result (nev_hdr * list (gmap string pyval) * list (gmap string pyval)) :=
  r ← with_open fs filename (
    BasicHdr ← f_read 336;
    FileTypeID ← lift (decode_utf8 (slice 0 8 BasicHdr));
    _ ← lift (assert (String.eqb FileTypeID "NEURALEV"));
    filespec ← lift (unpack_ints true 1 2 (slice 8 10 BasicHdr));
    Flags ← lift (unpack_H (slice 10 12 BasicHdr));
    HeaderOffset ← lift (unpack_I (slice 12 16 BasicHdr));
    PacketBytes ← lift (unpack_I (slice 16 20 BasicHdr));
    TimeRes ← lift (unpack_I (slice 20 24 BasicHdr));
    SampleRes ← lift (unpack_I (slice 24 28 BasicHdr));
    time ← lift (unpack_time (slice 28 44 BasicHdr));
    d ← lift (datetime_of_time time None);
    let Comment := slice 76 332 BasicHdr in
    countExtHeader ← lift (unpack_I (slice 332 336 BasicHdr));
    _ ← f_seek (- PacketBytes) SEEK_END;
    b ← f_read 4;
    DataDuration ← lift (unpack_I b);
    DataDurationSec ← lift (truediv DataDuration SampleRes);
    _ ← f_seek 336 SEEK_SET;
    st ← read_packets (Z.to_nat countExtHeader) ([], []);
    mret (FileTypeID, filespec, Flags, HeaderOffset, PacketBytes, TimeRes,
          SampleRes, time, d, Comment, DataDuration, DataDurationSec, st));
  let '(FileTypeID, filespec, Flags, HeaderOffset, PacketBytes, TimeRes,
        SampleRes, time, d, Comment, DataDuration, DataDurationSec,
        (ElectrodesInfo, IOLabels)) := r in
  ids ← mapM get_ElectrodeID ElectrodesInfo;
  Ok (mknev_hdr FileTypeID (filespec !!! 0%nat, filespec !!! 1%nat) Flags
        HeaderOffset PacketBytes TimeRes SampleRes time d Comment
        DataDuration DataDurationSec ids,
      ElectrodesInfo, IOLabels).

(** The header that [return_hdr] found in the file. *)
Inductive orig_hdr : Type :=
| OrigNSx (h : nsx_hdr)
| OrigNEV (h : nev_hdr).

Definition orig_DateTime (orig : orig_hdr) : datetime :=
  match orig with
  | OrigNSx h => DateTime h
  | OrigNEV h => nev_DateTime h
  end.

(** The tuple returned by [return_hdr]. *)
Record recording_hdr : Type := mkrecording_hdr {
  subj_id : string;
  start_time : datetime;
  s_freq : Z;
  chan_name : list string;
  n_samples : Z;
  orig : orig_hdr }.

(** An instance of [class BlackRock]: [filename], and the two attributes
    that [return_hdr] sets for a continuous file. *)
Record BlackRock : Type := mkBlackRock {
  filename : string;
  self_BOData : option Z;
  self_factor : option (list Q) }.

(** [BlackRock(filename)] *)
Definition BlackRock_init (filename : string) : BlackRock :=
  mkBlackRock filename None None.

(** [BlackRock.return_hdr]: the header and the instance as the call leaves
    it. *)
Definition return_hdr (fs : filesystem) (self : BlackRock)
  : result (recording_hdr * BlackRock) :=
  let ext := (splitext (filename self)).2 in
  if String.eqb (substring 0 3 ext) ".ns" then
    orig ← _read_neuralcd fs (filename self);
    let s_freq := SamplingFreq orig in
    let n_samples := DataPoints orig in
    let chan_name := Label <$> ElectrodesInfo orig in
    factor ← _convert_factor (ElectrodesInfo orig);
    let self' := mkBlackRock (filename self) (Some (BOData orig)) (Some factor) in
    let subj_id := EmptyString in
    let start_time := DateTime orig in
    Ok (mkrecording_hdr subj_id start_time s_freq chan_name n_samples
                        (OrigNSx orig), self')
  else if String.eqb ext ".nev" then
    r ← _read_neuralev fs (filename self);
    let orig := r.1.1 in
    let s_freq := nev_SampleRes orig in
    let n_samples := nev_DataDuration orig in
    let chan_name := ["dummy"] in
    let subj_id := EmptyString in
    let start_time := nev_DateTime orig in
    Ok (mkrecording_hdr subj_id start_time s_freq chan_name n_samples
                        (OrigNEV orig), self)
  else Raise NameError.

(** [BlackRock.return_dat] *)
Definition return_dat (fs : filesystem) (self : BlackRock) (chan : selector)
    (begsam endsam : Z) : result (ndarray Q) :=
  let ext := (splitext (filename self)).2 in
  if String.eqb ext ".nev" then Raise NotImplementedError
  else
    BOData ← from_option Ok (Raise AttributeError) (self_BOData self);
    factor ← from_option Ok (Raise AttributeError) (self_factor self);
    data ← _read_nsx fs (filename self) BOData factor begsam endsam;
    select_rows data chan.

End Reader.

End BlackRockIO.

(** ** [ktlx.py]

    The module keeps the idioms of Python 2, where what [f.read] returns
    was a byte string whatever the mode of the file, and could be compared
    with a string literal and given to [unpack] and [hexlify].  Under
    Python 3 a file opened with ['rb'] gives [bytes] and a file opened with
    ['r'] gives [str]; a [bytes] object never equals a [str], and [unpack]
    and [hexlify] refuse a [str] with [TypeError]. *)

Module KtlxIO.

#[global] Instance byte_eq_dec : EqDecision byte := fun x y =>
  match Byte.eqb x y as b return Byte.eqb x y = b -> Decision (x = y) with
  | true => fun H => left (Byte.byte_dec_bl x y H)
  | false => fun H => right (Byte.eqb_false H)
  end eq_refl.

Definition BITS_IN_BYTE : Z := 8.

(** *** The two kinds of strings *)

(** What a read returns, and what the literals of the module are. *)
Inductive data : Type :=
| Bytes (bs : list byte)
| Str (s : string).

(** [a == b]: objects of the two types are never equal. *)
Definition py_eq (a b : data) : bool :=
  match a, b with
  | Bytes x, Bytes y => bool_decide (x = y)
  | Str x, Str y => String.eqb x y
  | _, _ => false
  end.

(** [unpack(c, s)[0]] for an integer code [c] of [n] bytes. *)
Definition unpack_int_of (signed : bool) (n : nat) (s : data) : result Z :=
  match s with
  | Bytes bs => unpack_int signed n bs
  | Str _ => Raise TypeError
  end.

(** [unpack('c' * count, s)]: a tuple of [bytes] objects of length 1. *)
Definition unpack_chars_of (count : nat) (s : data) : result (list data) :=
  match s with
  | Bytes bs =>
      t ← unpack_chars count bs;
      Ok ((fun b : byte => Bytes [b]) <$> (t : list byte))
  | Str _ => Raise TypeError
  end.

(** [hexlify(s)]: the [bytes] object of the two hexadecimal digits of every
    byte. *)
Definition hex_digit (n : Z) : byte :=
  byte_of_Z (if n <? 10 then 48 + n else 87 + n).

Definition hexlify (s : data) : result (list byte) :=
  match s with
  | Bytes bs =>
      Ok (mjoin ((fun b => [hex_digit (byte_val b / 16);
                            hex_digit (byte_val b mod 16)]) <$> bs))
  | Str _ => Raise TypeError
  end.

(** [t.index(x)] *)
Fixpoint index (t : list data) (x : data) : result nat :=
  match t with
  | [] => Raise ValueError
  | y :: t' => if py_eq y x then Ok 0%nat else S <$> index t' x
  end.

(** [''.join(t)]: every item has to be a [str]. *)
Fixpoint join (t : list data) : result string :=
  match t with
  | [] => Ok EmptyString
  | Str s :: t' => String.append s <$> join t'
  | Bytes _ :: _ => Raise TypeError
  end.

Definition NUL : string := String Ascii.zero EmptyString.

(** [_make_str]: the items before the first one equal to the [str] of one
    NUL character, joined. *)
Definition _make_str (t : list data) : result string :=
  i ← index t (Str NUL);
  join (take i t).

(** The characters of a [str] in its UTF-8 form: a byte from 128 to 191
    continues the character before it. *)
Definition continues (a : ascii) : bool :=
  let n := Z.of_N (N_of_ascii a) in (128 <=? n) && (n <=? 191).

(** [len(s)] *)
Fixpoint str_len (s : string) : nat :=
  match s with
  | EmptyString => 0
  | String a s' => if continues a then str_len s' else S (str_len s')
  end.

(** [s[:n]] for [0 <= n] *)
Fixpoint str_take (n : nat) (s : string) : string :=
  match s with
  | EmptyString => EmptyString
  | String a s' =>
      if continues a then String a (str_take n s')
      else match n with
           | O => EmptyString
           | S k => String a (str_take k s')
           end
  end.

(** *** The header of a file: [_read_hdr_file] *)

(** The header dictionary of a file of the family.  [file_guid] is the
    [bytes] object of [hexlify]; [creation_time] keeps the seconds since the
    epoch and [sample_freq] the eight bytes of the binary64 number;
    [patient_id] is the text that replaces the number read first. *)
Record ktlx_hdr : Type := mkktlx_hdr {
  file_guid : list byte;
  file_schema : Z;
  base_schema : Z;
  creation_time : Z;
  study_id : Z;
  pat_last_name : string;
  pat_first_name : string;
  pat_middle_name : string;
  patient_id : string;
  sample_freq : list byte;
  num_channels : Z;
  deltabits : Z;
  phys_chan : list Z;
  headbox_type : list Z;
  headbox_sn : list Z;
  headbox_sw_version : string;
  dsp_hw_version : string;
  dsp_sw_version : string;
  discardbits : Z;
  shorted : option (list Z);
  frequency_factor : option (list Z) }.

(** [_make_str(unpack('c' * n, f.read(n)))] on a file opened with ['rb'] *)
Definition read_name (n : nat) : IO string :=
  b ← f_read (Z.of_nat n);
  t ← lift (unpack_chars_of n (Bytes b));
  lift (_make_str t).

(** [unpack(c, f.read(n))[0]] on a file opened with ['rb'] *)
Definition read_int (signed : bool) (n : nat) : IO Z :=
  b ← f_read (Z.of_nat n);
  lift (unpack_int_of signed n (Bytes b)).

(** [_read_hdr_file] *)
Definition _read_hdr_file (fs : filesystem) (ktlx_file : string)
  : result ktlx_hdr :=
  with_open fs ktlx_file (
    pos ← f_tell;
    _ ← lift (assert (pos =? 0));
    b ← f_read 16;
    file_guid ← lift (hexlify (Bytes b));
    file_schema ← read_int false 2;
    _ ← lift (assert ((file_schema =? 7) || (file_schema =? 8)
                      || (file_schema =? 9)));
    base_schema ← read_int false 2;
    _ ← lift (assert (base_schema =? 1));
    creation_time ← read_int true 4;
    patient_number ← read_int true 4;
    study_id ← read_int true 4;
    pat_last_name ← read_name 80;
    pat_first_name ← read_name 80;
    pat_middle_name ← read_name 80;
    patient_id ← read_name 80;
    pos ← f_tell;
    _ ← lift (assert (pos =? 352));
    (* file_schema >= 7 *)
    b ← f_read 8;
    sample_freq ← lift (unpack_chars 8 b);
    num_channels ← read_int true 4;
    deltabits ← read_int true 4;
    b ← f_read (num_channels * 4);
    phys_chan ← lift (unpack_ints true 4 (Z.to_nat num_channels) b);
    _ ← f_seek 4464 SEEK_SET;
    b ← f_read 16;
    headbox_type ← lift (unpack_ints true 4 4 b);
    b ← f_read 16;
    headbox_sn ← lift (unpack_ints true 4 4 b);
    headbox_sw_version ← read_name 40;
    dsp_hw_version ← read_name 10;
    dsp_sw_version ← read_name 10;
    discardbits ← read_int true 4;
    if 8 <=? file_schema then
      b ← f_read 2048;
      shorted ← lift (unpack_ints true 2 1024 b);
      b ← f_read 2048;
      frequency_factor ← lift (unpack_ints true 2 1024 b);
      mret (mkktlx_hdr file_guid file_schema base_schema creation_time
              study_id pat_last_name pat_first_name pat_middle_name
              patient_id sample_freq num_channels deltabits phys_chan
              headbox_type headbox_sn headbox_sw_version dsp_hw_version
              dsp_sw_version discardbits (Some shorted)
              (Some frequency_factor))
    else
      mret (mkktlx_hdr file_guid file_schema base_schema creation_time
              study_id pat_last_name pat_first_name pat_middle_name
              patient_id sample_freq num_channels deltabits phys_chan
              headbox_type headbox_sn headbox_sw_version dsp_hw_version
              dsp_sw_version discardbits None None)).

(** *** The raw data: [_read_erd] *)

(** [read_bits], as the loop over the mask applies it: to [v1 + v2] where
    [v1] and [v2] are items of the [bytes] object of [hexlify], that is,
    integers.  [int(x, 16)] refuses an [x] that is not a string with
    [TypeError]; the digits of [bin], the lowest first, are what would
    follow. *)
Definition read_bits (x : Z) : result (list bool) :=
  n ← (Raise TypeError : result Z);
  Ok ((fun k => Z.testbit n (Z.of_nat k)) <$> seq 0 8).

(** The loop over [zip(hx_deltamask[::2], hx_deltamask[1::2])] that builds
    the mask. *)
Fixpoint deltamask_of (hx_deltamask : list byte) : result (list bool) :=
  match hx_deltamask with
  | v1 :: v2 :: hx' =>
      bits ← read_bits (byte_val v1 + byte_val v2);
      rest ← deltamask_of hx';
      Ok (bits ++ rest)
  | _ => Ok []
  end.

(** The length of the mask, [int(ceil(n_chan / BITS_IN_BYTE + 0.5))]. *)
Definition l_deltamask (n_chan : Z) : Z := (n_chan + 11) / BITS_IN_BYTE.

(** [zeros((n_chan, n_samples))], kept as the list of its rows. *)
Definition zeros (n_chan n_samples : Z) : result (list (list Z)) :=
  if (n_chan <? 0) || (n_samples <? 0) then Raise ValueError
  else Ok (replicate (Z.to_nat n_chan) (replicate (Z.to_nat n_samples) 0)).

(** [output[i_c, i]] and [output[i_c, i] = v] *)
Definition get2 (output : list (list Z)) (i_c i : Z) : result Z :=
  row ← getitem output i_c;
  getitem row i.
Definition set2 (output : list (list Z)) (i_c i v : Z)
  : result (list (list Z)) :=
  row ← getitem output i_c;
  row' ← setitem row i v;
  setitem output i_c row'.

Section TextMode.

(** [f.read(n)] on a file opened with ['r']: [n] characters, decoded by the
    text layer of the interpreter with the codec of the locale and its
    rule for the ends of lines.  That layer is not part of the repository;
    whatever it is, it returns a [str] or raises. *)
Context (text_read : Z -> IO string).

(** The first pass over the channels of sample [i]: the loop over
    [enumerate(deltamask[:n_chan])], entered with the bits that are left,
    the index [i_c] of the next one, and the flags [c] found so far. *)
Fixpoint delta_pass (abs_delta : string) (mask : list bool) (i_c i : Z)
    (c : list bool) (output : list (list Z))
  : IO (list bool * list (list Z)) :=
  match mask with
  | [] => mret (c, output)
  | m :: mask' =>
      s ← text_read (if m then 2 else 1);
      if py_eq (Str s) (Str abs_delta) then
        delta_pass abs_delta mask' (i_c + 1) i (c ++ [true])%list output
      else
        prev ← lift (get2 output i_c (i - 1));
        d ← lift (if m then unpack_int_of true 2 (Str s)
                  else unpack_int_of true 1 (Str s));
        output' ← lift (set2 output i_c i (prev + d));
        delta_pass abs_delta mask' (i_c + 1) i (c ++ [false])%list output'
  end.

(** The second pass: the loop over [range(n_chan)], entered with the
    indices that are left. *)
Fixpoint abs_pass (chans : list nat) (i : Z) (c : list bool)
    (output : list (list Z)) : IO (list (list Z)) :=
  match chans with
  | [] => mret output
  | i_c :: chans' =>
      flag ← lift (getitem c (Z.of_nat i_c));
      if flag : bool then
        s ← text_read 4;
        v ← lift (unpack_int_of true 4 (Str s));
        output' ← lift (set2 output (Z.of_nat i_c) i v);
        abs_pass chans' i c output'
      else abs_pass chans' i c output
  end.

(** One round of the loop over the samples: [None] when the loop is left
    at the end of the file.  ([n_chan] is not negative here: [zeros] has
    accepted it.) *)
Definition read_sample (file_schema n_chan : Z) (abs_delta : string)
    (i : Z) (output : list (list Z)) : IO (option (list (list Z))) :=
  eventbite ← text_read 1;
  if py_eq (Str eventbite) (Str EmptyString) then mret None
  else
    h ← lift (hexlify (Str eventbite));
    _ ← lift (assert (py_eq (Bytes h) (Str "00")));
    deltamask ←
      (if file_schema =? 7 then mret (replicate (Z.to_nat n_chan) false)
       else
         s ← text_read (l_deltamask n_chan);
         hx_deltamask ← lift (hexlify (Str s));
         lift (deltamask_of hx_deltamask));
    r ← delta_pass abs_delta (take (Z.to_nat n_chan) deltamask) 0 i []
                   output;
    output' ← abs_pass (seq 0 (Z.to_nat n_chan)) i r.1 r.2;
    mret (Some output').

(** The loop [for i in range(n_samples)], entered with the indices that are
    left. *)
Fixpoint read_samples (file_schema n_chan : Z) (abs_delta : string)
    (samples : list nat) (output : list (list Z)) : IO (list (list Z)) :=
  match samples with
  | [] => mret output
  | i :: samples' =>
      r ← read_sample file_schema n_chan abs_delta (Z.of_nat i) output;
      match r with
      | None => mret output
      | Some output' =>
          read_samples file_schema n_chan abs_delta samples' output'
      end
  end.

(** [_read_erd]: the header is read from the file opened with ['rb'], the
    samples from the same file opened with ['r'].  The two marks of an
    absolute value are the [str] of the character 128 and the [str] of two
    characters 255. *)
Definition _read_erd (fs : filesystem) (erd_file : string) (n_samples : Z)
  : result (list (list Z)) :=
  hdr ← _read_hdr_file fs erd_file;
  let n_chan := num_channels hdr in
  with_open fs erd_file (
    _ ← (if file_schema hdr =? 7 then f_seek 4560 SEEK_SET
         else f_seek 8656 SEEK_SET);
    let abs_delta := if file_schema hdr =? 7 then chr 128
                     else chr 255 +:+ chr 255 in
    output ← lift (zeros n_chan n_samples);
    read_samples (file_schema hdr) n_chan abs_delta
                 (seq 0 (Z.to_nat n_samples)) output).

(** *** The notes: [_read_ent] *)

(** [s.replace(old, new)] for a non-empty [old]: from left to right, every
    occurrence of [old] that does not overlap the one before.  [skip] counts
    the characters of an occurrence that are still to be passed. *)
Fixpoint replace_from (old new : string) (skip : nat) (s : string) : string :=
  match s with
  | EmptyString => EmptyString
  | String a s' =>
      match skip with
      | S k => replace_from old new k s'
      | O =>
          if String.prefix old s
          then new +:+ replace_from old new (String.length old - 1) s'
          else String a (replace_from old new 0 s')
      end
  end.
Definition replace (old new s : string) : string := replace_from old new 0 s.

(** The class of the pattern: a digit, a space, or a character from the
    comma to the full stop (comma, hyphen, full stop). *)
Definition in_class (a : ascii) : bool :=
  let n := Z.of_N (N_of_ascii a) in
  ((48 <=? n) && (n <=? 57)) || (n =? 32) || ((44 <=? n) && (n <=? 46)).

(** The longest prefix of [s] in the class, and what follows it. *)
Fixpoint span_class (s : string) : string * string :=
  match s with
  | EmptyString => (EmptyString, EmptyString)
  | String a s' =>
      if in_class a
      then let r := span_class s' in (String a r.1, r.2)
      else (EmptyString, s)
  end.

(** The call of [sub] in [_read_ent]: its pattern is an opening parenthesis,
    then a group of any number of characters of the class, then a closing
    brace; the match is replaced by the group between square brackets.  The
    brace is not in the class, so the pattern matches at a parenthesis
    exactly when the longest run of the class ends at a brace. *)
Fixpoint sub_from (skip : nat) (s : string) : string :=
  match s with
  | EmptyString => EmptyString
  | String a s' =>
      match skip with
      | S k => sub_from k s'
      | O =>
          if Ascii.eqb a "("
          then let r := span_class s' in
               match r.2 with
               | String b _ =>
                   if Ascii.eqb b "}"
                   then "[" +:+ r.1 +:+ "]"
                        +:+ sub_from (String.length r.1 + 1) s'
                   else String a (sub_from 0 s')
               | EmptyString => String a (sub_from 0 s')
               end
          else String a (sub_from 0 s')
      end
  end.

Definition LF : ascii := ascii_of_N 10.
Definition backslash : ascii := ascii_of_N 92.
Definition dquote : ascii := ascii_of_N 34.

(** The rewriting of the text of a note, up to the call of [eval]. *)
Definition translate (s : string) : string :=
  let s1 := replace (String LF EmptyString) " " s in
  let s1 := replace (String backslash "xd ") EmptyString s1 in
  let s1 := replace "(." "{" s1 in
  let s1 := replace ")" "}" s1 in
  let s1 := replace (String dquote ",") (String dquote " :") s1 in
  let s1 := replace (String "{" (String dquote EmptyString))
                    (String dquote EmptyString) s1 in
  let s1 := replace "}," "," s1 in
  let s1 := replace "}}" "}" s1 in
  sub_from 0 s1.

Section Notes.

(** The values of [eval], and [eval] itself: [None] when it raises. *)
Context {value : Type} (eval : string -> option value).

Record note : Type := mknote {
  note_type : Z;
  note_length : Z;
  note_prev_length : Z;
  note_unused : Z;
  note_value : value }.

Definition note_hdr_length : Z := 16.

(** [unpack('i', f.read(4))] on the file opened with ['r'] *)
Definition read_field : IO Z :=
  s ← text_read 4;
  lift (unpack_int_of true 4 (Str s)).

(** The loop [while True] of [_read_ent]; [bound] limits the number of
    rounds. *)
Fixpoint read_notes (bound : nat) (allnote : list note) : IO (list note) :=
  match bound with
  | O => raise LoopBound
  | S bound' =>
      type ← read_field;
      length ← read_field;
      prev_length ← read_field;
      unused ← read_field;
      if type =? 0 then mret allnote
      else
        s ← text_read (length - note_hdr_length);
        let s := str_take (str_len s - 2) s in
        match eval (translate s) with
        | Some v =>
            read_notes bound'
              (allnote ++ [mknote type length prev_length unused v])%list
        | None => read_notes bound' allnote
        end
  end.

(** [_read_ent] *)
Definition _read_ent (fs : filesystem) (ent_file : string)
  : result (list note) :=
  with_open fs ent_file (
    _ ← f_seek 352 SEEK_SET;
    n ← f_len;
    read_notes (S n) []).

End Notes.

End TextMode.

(** *** [class Ktlx] *)

(** What a name can be bound to. *)
Inductive pyobj : Type :=
| ObjStr (s : string)
| ObjInt (n : Z)
| ObjOther.        (* a module, a function, a class, an instance *)

(** The names bound at the top level of the module, in the order of the
    source. *)
Definition module_names : gmap string pyobj :=
  list_to_map
    [("division", ObjOther); ("hexlify", ObjOther); ("timedelta", ObjOther);
     ("datetime", ObjOther); ("glob", ObjOther); ("ceil", ObjOther);
     ("zeros", ObjOther); ("SEEK_END", ObjInt 2); ("basename", ObjOther);
     ("join", ObjOther); ("exists", ObjOther); ("splitext", ObjOther);
     ("sub", ObjOther); ("match", ObjOther); ("unpack", ObjOther);
     ("BITS_IN_BYTE", ObjInt 8);
     ("EPOCH_AS_FILETIME", ObjInt 116444736000000000);
     ("HUNDREDS_OF_NANOSECONDS", ObjInt 10000000);
     ("ZERO", ObjOther); ("HOUR", ObjOther);
     ("_calculate_conversion", ObjOther); ("_filetime_to_dt", ObjOther);
     ("_make_str", ObjOther); ("_read_eeg", ObjOther);
     ("_read_ent", ObjOther); ("_read_erd", ObjOther);
     ("_read_etc", ObjOther); ("_read_snc", ObjOther);
     ("_read_stc", ObjOther); ("_read_hdr_file", ObjOther);
     ("Ktlx", ObjOther)].

(** The built-in names that the module uses. *)
Definition builtin_names : gmap string pyobj :=
  list_to_map
    [("isinstance", ObjOther); ("str", ObjOther); ("open", ObjOther);
     ("eval", ObjOther); ("int", ObjOther); ("bin", ObjOther);
     ("range", ObjOther); ("enumerate", ObjOther); ("zip", ObjOther);
     ("len", ObjOther); ("print", ObjOther); ("IOError", ObjOther)].

(** The value of the name [x] in a function body: the local names first,
    then the names of the module, then the built-in ones. *)
Definition name (locals : gmap string pyobj) (x : string) : result pyobj :=
  from_option Ok (Raise NameError)
    ((locals ∪ module_names ∪ builtin_names) !! x).

(** [isinstance(v, str)] *)
Definition isinstance_str (v : pyobj) : bool :=
  match v with
  | ObjStr _ => true
  | _ => false
  end.

(** An instance of [class Ktlx]: the attributes that are set. *)
Record Ktlx : Type := mkKtlx {
  ktlx_dir : option string;
  _basename : option string;
  _orig : option ktlx_hdr }.

Section KtlxClass.

(** Two methods whose bodies are not modelled: [_read_hdr_dir], the scan of
    the directory for the first [.erd] file and the reading of its header,
    which gives [_basename] and [_orig]; and [_read_notes], the text made
    of the notes. *)
Context (_read_hdr_dir : filesystem -> string -> result (string * ktlx_hdr)).
Context (_read_notes : filesystem -> Ktlx -> result string).

(** [Ktlx.__init__] *)
Definition Ktlx_init (fs : filesystem) (dir : string) : result Ktlx :=
  let locals : gmap string pyobj :=
    <["ktlx_dir" := ObjStr dir]> (<["self" := ObjOther]> ∅) in
  _ ← name locals "isinstance";
  v ← name locals "Ktlx_dir";
  _ ← name locals "str";
  if isinstance_str v then
    r ← _read_hdr_dir fs dir;
    Ok (mkKtlx (Some dir) (Some r.1) (Some r.2))
  else Ok (mkKtlx None None None).

(** [Ktlx.return_hdr]: the tuple [(subj_id, start_time, s_freq, chan_name,
    n_samples, orig)], [orig] with its new entry [notes]. *)
Definition Ktlx_return_hdr (fs : filesystem) (self : Ktlx)
  : result (string * Z * list byte * list string * Z * (ktlx_hdr * string)) :=
  orig ← from_option Ok (Raise AttributeError) (_orig self);
  let subj_id :=
    if String.eqb (patient_id orig) EmptyString then
      pat_first_name orig +:+ pat_middle_name orig +:+ pat_last_name orig
    else patient_id orig in
  let start_time := creation_time orig in
  let s_freq := sample_freq orig in
  let chan_name := [EmptyString] in
  let n_samples := 0 in
  let notes :=
    match _read_notes fs self with
    | Ok s => Ok s
    | Raise IOError => Ok "could not find .ent file"
    | Raise e => Raise e
    end in
  notes ← notes;
  Ok (subj_id, start_time, s_freq, chan_name, n_samples, (orig, notes)).

(** The opening of a recording: the decoder is built and asked for the
    header. *)
Definition Ktlx_open (fs : filesystem) (dir : string) :=
  self ← Ktlx_init fs dir;
  Ktlx_return_hdr fs self.

End KtlxClass.

End KtlxIO.

(** ** Sample files *)

Module Samples.
Import BlackRockIO KtlxIO.

(** [bs] cut or filled with NUL to [n] bytes. *)
Definition padded (n : nat) (bs : list byte) : list byte :=
  take n (bs ++ replicate n "000"%byte).

Definition text (n : nat) (s : string) : list byte :=
  padded n (list_byte_of_string s).

(** The 66 bytes of an electrode record. *)
Definition electrode_record (id : Z) (label : string)
    (mind maxd mina maxa : Z) : list byte :=
  list_byte_of_string "CC" ++ le_split 2 id ++ text 16 label
  ++ le_split 1 1 ++ le_split 1 id
  ++ le_split 2 mind ++ le_split 2 maxd ++ le_split 2 mina ++ le_split 2 maxa
  ++ text 16 "uV"
  ++ le_split 4 300 ++ le_split 4 1 ++ le_split 2 1
  ++ le_split 4 7500000 ++ le_split 4 3 ++ le_split 2 1.

(** The header of a continuous file up to the electrode table. *)
Definition nsx_basic (period timeres : Z) (time : list Z) (count : Z)
  : list byte :=
  list_byte_of_string "NEURALCD"
  ++ le_split 1 2 ++ le_split 1 2 ++ le_split 4 (314 + 66 * count)
  ++ text 16 "30 kS/s" ++ replicate 256 "000"%byte
  ++ le_split 4 period ++ le_split 4 timeres
  ++ mjoin (le_split 2 <$> time) ++ le_split 4 count.

(** A data packet: the tag 1, a time stamp, the number of data points and
    the samples. *)
Definition data_packet (n : Z) (samples : list Z) : list byte :=
  le_split 1 1 ++ le_split 4 0 ++ le_split 4 n ++ mjoin (le_split 2 <$> samples).

Definition sample_time : list Z := [2014; 3; 2; 18; 15; 30; 45; 123].

(** Two channels with the ranges [-5000, 5000] and [-32767, 32767], and four
    samples of each. *)
Definition two_channels : list byte :=
  nsx_basic 1 30000 sample_time 2
  ++ electrode_record 1 "chan1" (-32767) 32767 (-5000) 5000
  ++ electrode_record 2 "chan2" (-32767) 32767 (-5000) 5000
  ++ data_packet 4 [32767; -32767; 1; 2; -1; -2; 100; 200].

Definition two_channels_fs : filesystem := {[ "rec.ns4" := two_channels ]}.

(** A spike-channel record of the extended header of an event file. *)
Definition spike_record (id df : Z) : list byte :=
  list_byte_of_string "NEUEVWAV" ++ le_split 2 id ++ le_split 1 1
  ++ le_split 1 id ++ le_split 2 df ++ le_split 2 0 ++ le_split 2 0
  ++ le_split 2 0 ++ le_split 1 0 ++ le_split 1 48 ++ replicate 10 "000"%byte.

(** A label record. *)
Definition label_record (id : Z) (label : string) : list byte :=
  list_byte_of_string "NEUEVLBL" ++ le_split 2 id ++ text 22 label.

(** An event file: one spike channel, its label, and one data packet of
    eight bytes that starts with the time stamp 90000. *)
Definition one_spike_channel : list byte :=
  list_byte_of_string "NEURALEV"
  ++ le_split 1 2 ++ le_split 1 3 ++ le_split 2 0 ++ le_split 4 400
  ++ le_split 4 8 ++ le_split 4 30000 ++ le_split 4 30000
  ++ mjoin (le_split 2 <$> sample_time)
  ++ replicate 32 "000"%byte ++ text 256 "a comment" ++ le_split 4 2
  ++ spike_record 1 21516 ++ label_record 1 "elec1"
  ++ le_split 4 90000 ++ le_split 4 0.

Definition one_spike_channel_fs : filesystem :=
  {[ "rec.nev" := one_spike_channel ]}.

(** The two files together. *)
Definition both_fs : filesystem :=
  <["rec.nev" := one_spike_channel]> two_channels_fs.

(** The header of a raw-data file of schema 7 with two channels. *)
Definition erd_header : list byte :=
  replicate 16 "001"%byte ++ le_split 2 7 ++ le_split 2 1
  ++ le_split 4 1400000000 ++ le_split 4 12 ++ le_split 4 34
  ++ text 80 "Doe" ++ text 80 "Jane" ++ text 80 EmptyString ++ text 80 "P001"
  ++ le_split 8 0 ++ le_split 4 2 ++ le_split 4 8
  ++ le_split 4 0 ++ le_split 4 1
  ++ replicate (4464 - 376) "000"%byte
  ++ mjoin (le_split 4 <$> [1; 0; 0; 0]) ++ mjoin (le_split 4 <$> [7; 0; 0; 0])
  ++ text 40 "v1" ++ text 10 "hw" ++ text 10 "sw" ++ le_split 4 0.

(** Two samples: the first gives channel 0 the absolute value 1000 and
    channel 1 the delta 5; the second gives channel 0 the delta -1 and
    channel 1 the absolute value -7. *)
Definition erd_two_samples : list byte :=
  erd_header
  ++ ["000"%byte; "128"%byte; "005"%byte] ++ le_split 4 1000
  ++ ["000"%byte; "255"%byte; "128"%byte] ++ le_split 4 (-7).

(** The same file with the event byte of the second sample set. *)
Definition erd_trigger : list byte :=
  erd_header
  ++ ["000"%byte; "128"%byte; "005"%byte] ++ le_split 4 1000
  ++ ["001"%byte; "255"%byte; "128"%byte] ++ le_split 4 (-7).

Definition erd_fs : filesystem :=
  <["trigger.erd" := erd_trigger]> {[ "rec.erd" := erd_two_samples ]}.

(** A text layer for the samples: the ASCII codec on a file without
    carriage return, read without look-ahead; a byte above 127 is
    refused. *)
Definition ascii_read (n : Z) : IO string :=
  bs ← f_read n;
  if forallb (fun b => byte_val b <? 128) bs
  then mret (string_of_list_byte bs)
  else raise UnicodeDecodeError.

(** A conversion of zones for the samples: five hours before UTC, within
    the day. *)
Definition five_hours_west (d : datetime) (z : tzinfo) : result datetime :=
  if 5 <=? hour d
  then Ok (mkdatetime (year d) (month d) (day d) (hour d - 5) (minute d)
                      (second d) (microsecond d) (Some z))
  else Raise ValueError.

End Samples.
(** * Properties *)

Import BlackRockIO KtlxIO.

(** ** Bytes *)

Lemma byte_val_range (b : byte) : 0 <= byte_val b < 256.
Proof.
  unfold byte_val. pose proof (Byte.to_N_bounded b). lia.
Qed.

Lemma byte_val_of_Z (z : Z) : byte_val (byte_of_Z z) = z mod 256.
Proof.
  unfold byte_val, byte_of_Z.
  assert (0 <= z mod 256 < 256) by (apply Z.mod_pos_bound; lia).
  destruct (Byte.of_N (Z.to_N (z mod 256))) as [b|] eqn:E; simpl.
  - apply Byte.to_of_N in E. rewrite E. lia.
  - apply Byte.of_N_None_iff in E. lia.
Qed.

Lemma length_le_split (n : nat) (z : Z) : length (le_split n z) = n.
Proof. revert z. induction n as [|n IH]; intros z; simpl; [done|]. by rewrite IH. Qed.

Lemma le_combine_range (bs : list byte) :
  0 <= le_combine bs < 2 ^ (8 * Z.of_nat (length bs)).
Proof.
  induction bs as [|b bs IH]; simpl le_combine; simpl length.
  - simpl. lia.
  - pose proof (byte_val_range b).
    replace (8 * Z.of_nat (S (length bs))) with (8 + 8 * Z.of_nat (length bs)) by lia.
    rewrite Z.pow_add_r by lia. change (2 ^ 8) with 256. nia.
Qed.

Lemma le_combine_split (n : nat) (z : Z) :
  le_combine (le_split n z) = z mod 2 ^ (8 * Z.of_nat n).
Proof.
  revert z. induction n as [|n IH]; intros z.
  - simpl. by rewrite Z.mod_1_r.
  - cbn [le_split le_combine]. rewrite byte_val_of_Z, IH.
    replace (8 * Z.of_nat (S n)) with (8 + 8 * Z.of_nat n) by lia.
    rewrite Z.pow_add_r by lia. change (2 ^ 8) with 256.
    rewrite Z.rem_mul_r; [done | lia | ].
    apply Z.pow_pos_nonneg; lia.
Qed.

Lemma to_signed_mod (n : nat) (z : Z) :
  (0 < n)%nat ->
  - 2 ^ (8 * Z.of_nat n - 1) <= z < 2 ^ (8 * Z.of_nat n - 1) ->
  to_signed n (z mod 2 ^ (8 * Z.of_nat n)) = z.
Proof.
  intros Hn Hz. unfold to_signed.
  set (h := 2 ^ (8 * Z.of_nat n - 1)) in *.
  assert (Hp : 2 ^ (8 * Z.of_nat n) = 2 * h).
  { unfold h. rewrite <- Z.pow_succ_r by lia. f_equal. lia. }
  assert (0 < h) by (apply Z.pow_pos_nonneg; lia).
  rewrite Hp.
  destruct (Z.ltb_spec 0 (z + 1)) as [Hpos|Hneg].
  - rewrite Z.mod_small by lia.
    destruct (Z.ltb_spec z h); lia.
  - replace (z mod (2 * h)) with (z + 2 * h).
    + destruct (Z.ltb_spec (z + 2 * h) h); lia.
    + apply Z.mod_unique with (-1); lia.
Qed.

(** Reading back an integer written on [n] bytes. *)
Lemma unpack_int_split_signed (n : nat) (z : Z) :
  (0 < n)%nat ->
  - 2 ^ (8 * Z.of_nat n - 1) <= z < 2 ^ (8 * Z.of_nat n - 1) ->
  unpack_int true n (le_split n z) = Ok z.
Proof.
  intros Hn Hz. unfold unpack_int.
  rewrite length_le_split, Nat.eqb_refl, le_combine_split.
  by rewrite to_signed_mod.
Qed.


Lemma unpack_int_Ok (signed : bool) (n : nat) (bs : list byte) (z : Z) :
  unpack_int signed n bs = Ok z -> length bs = n.
Proof.
  unfold unpack_int. destruct (Nat.eqb_spec (length bs) n); [done|discriminate].
Qed.

(** ** The monad of the readers *)

Lemma bind_Ok {A B} (r : result A) (k : A -> result B) (b : B) :
  r ≫= k = Ok b -> exists a, r = Ok a /\ k a = Ok b.
Proof. destruct r as [a|e]; simpl; [eauto | discriminate]. Qed.

Lemma bind_IO_Ok {A B} (c : IO A) (k : A -> IO B) (f f' : file) (b : B) :
  (c ≫= k) f = Ok (b, f') ->
  exists a f1, c f = Ok (a, f1) /\ k a f1 = Ok (b, f').
Proof.
  unfold mbind, IO_bind. destruct (c f) as [[a f1]|e]; [eauto | discriminate].
Qed.

Lemma lift_Ok {A} (r : result A) (f f' : file) (a : A) :
  lift r f = Ok (a, f') -> r = Ok a /\ f' = f.
Proof. unfold lift. destruct r; intros H; by simplify_eq. Qed.

Lemma with_open_Ok {A} (fs : filesystem) (path : string) (body : IO A) (a : A) :
  with_open fs path body = Ok a ->
  exists bs f', fs !! path = Some bs /\ body (mkfile bs 0) = Ok (a, f').
Proof.
  unfold with_open. destruct (fs !! path) as [bs|] eqn:E; [|discriminate].
  destruct (body (mkfile bs 0)) as [[a' f']|e] eqn:E'; simpl; [|discriminate].
  intros [= ->]. eauto.
Qed.

(** Inversion of a successful sequence of reads, step by step. *)
Ltac inv_step H :=
  match type of H with
  | (_ ≫= _) _ = Ok _ =>
      let a := fresh "a" in let f := fresh "f" in
      let H1 := fresh "Hs" in
      apply bind_IO_Ok in H as (a & f & H1 & H)
  | _ ≫= _ = Ok _ =>
      let a := fresh "a" in let H1 := fresh "Hs" in
      apply bind_Ok in H as (a & H1 & H)
  end.

Ltac inv_lift H :=
  match type of H with
  | lift _ _ = Ok _ => apply lift_Ok in H as [H ->]
  end.

(** ** The scale factors of a continuous file *)

(** The two ranges of a descriptor are symmetric around zero. *)
Definition symmetric (elec : electrode) : Prop :=
  MaxDigiValue elec = - MinDigiValue elec
  /\ MaxAnalogValue elec = - MinAnalogValue elec.

(** The scale of a descriptor: the analog span over the digital span. *)
Definition scale (elec : electrode) : Q :=
  (inject_Z (MaxAnalogValue elec - MinAnalogValue elec)
   / inject_Z (MaxDigiValue elec - MinDigiValue elec))%Q.

(** A descriptor with four ranges. *)
Definition ranges (mind maxd mina maxa : Z) : electrode :=
  mkelectrode "CC" 1 "chan" "A" 1 mind maxd mina maxa "uV" 0 0 0 0 0 0.

Lemma convert_factor_cons_good (elec : electrode) (rest : list electrode) :
  symmetric elec -> MaxDigiValue elec <> 0 ->
  _convert_factor (elec :: rest)
  = (_convert_factor rest ≫= fun factor => Ok (scale elec :: factor)).
Proof.
  intros [Hd Ha] Hnz. cbn [_convert_factor].
  rewrite (proj2 (Z.eqb_eq _ _) Hd), (proj2 (Z.eqb_eq _ _) Ha). simpl.
  unfold truediv.
  destruct (Z.eqb_spec (MaxDigiValue elec - MinDigiValue elec) 0) as [E|E];
    [lia|]. reflexivity.
Qed.

Lemma convert_factor_cons_bad (elec : electrode) (rest : list electrode) :
  ~ symmetric elec -> _convert_factor (elec :: rest) = Raise AssertionError.
Proof.
  intros Hbad. cbn [_convert_factor].
  destruct (Z.eqb_spec (MaxDigiValue elec) (- MinDigiValue elec)) as [Hd|Hd];
    [|done].
  destruct (Z.eqb_spec (MaxAnalogValue elec) (- MinAnalogValue elec)) as [Ha|Ha];
    [|done].
  destruct Hbad. by split.
Qed.

(** C2 (amended): when every descriptor of the table has symmetric ranges
    and a digital maximum other than zero, the scale factors are the analog
    span over the digital span, one per descriptor and in order; and a
    descriptor that breaks a symmetry, after such descriptors, raises the
    assertion error before its scale is computed, whatever follows it. *)
Theorem convert_factor_spec (good : list electrode)
    (Hgood : Forall (fun elec => symmetric elec /\ MaxDigiValue elec <> 0) good) :
  _convert_factor good = Ok (scale <$> good)
  /\ forall bad rest, ~ symmetric bad ->
       _convert_factor (good ++ bad :: rest) = Raise AssertionError.
Proof.
  induction Hgood as [|elec good [Hs Hnz] _ [IH1 IH2]].
  - split; [done|]. intros bad rest Hbad. by apply convert_factor_cons_bad.
  - split.
    + rewrite convert_factor_cons_good, IH1 by done. done.
    + intros bad rest Hbad. simpl app.
      rewrite convert_factor_cons_good, IH2 by done. done.
Qed.

Lemma convert_factor_spec_witness :
  Forall (fun elec => symmetric elec /\ MaxDigiValue elec <> 0)
         [ranges (-32767) 32767 (-5000) 5000]
  /\ _convert_factor [ranges (-32767) 32767 (-5000) 5000]
     = Ok [(10000 # 1) / (65534 # 1)]%Q
  /\ _convert_factor ([ranges (-32767) 32767 (-5000) 5000]
                      ++ [ranges 0 0 (-5000) 4999])
     = Raise AssertionError.
Proof.
  assert (Hgood : Forall (fun elec => symmetric elec /\ MaxDigiValue elec <> 0)
                         [ranges (-32767) 32767 (-5000) 5000]).
  { repeat constructor; simpl; lia. }
  split; [exact Hgood|].
  destruct (convert_factor_spec _ Hgood) as [H1 H2].
  split; [exact H1|].
  apply H2. unfold symmetric; simpl. lia.
Defined.

(** C2, as stated, fails: a descriptor whose ranges are all zero is
    symmetric, and the division by its digital span raises. *)
Lemma convert_factor_zero_span :
  symmetric (ranges 0 0 0 0)
  /\ _convert_factor [ranges 0 0 0 0] = Raise ZeroDivisionError.
Proof. split; [by split|reflexivity]. Qed.

(** The length of the table is kept. *)
Lemma convert_factor_length (l : list electrode) (factor : list Q) :
  _convert_factor l = Ok factor -> length factor = length l.
Proof.
  revert factor. induction l as [|elec l IH]; intros factor H.
  - by injection H as <-.
  - cbn [_convert_factor] in H.
    repeat inv_step H. injection H as <-. simpl. f_equal. by apply IH.
Qed.

(** ** Sequences and slices *)

Lemma getitem_nat {A} (l : list A) (k : nat) (x : A) :
  l !! k = Some x -> getitem l (Z.of_nat k) = Ok x.
Proof.
  intros H. pose proof (lookup_lt_Some _ _ _ H) as Hlt.
  unfold getitem.
  destruct (Z.ltb_spec (Z.of_nat k) (- Z.of_nat (length l))); [lia|].
  destruct (Z.leb_spec (Z.of_nat (length l)) (Z.of_nat k)); [lia|].
  destruct (Z.ltb_spec (Z.of_nat k) 0); [lia|].
  simpl. by rewrite Nat2Z.id, H.
Qed.

Lemma getitem_Ok {A} (l : list A) (i : Z) (x : A) :
  getitem l i = Ok x ->
  - Z.of_nat (length l) <= i < Z.of_nat (length l)
  /\ l !! Z.to_nat (if i <? 0 then i + Z.of_nat (length l) else i) = Some x.
Proof.
  unfold getitem.
  destruct (Z.ltb_spec i (- Z.of_nat (length l))); [done|].
  destruct (Z.leb_spec (Z.of_nat (length l)) i); [done|]. simpl.
  destruct (l !! _) eqn:E; [|done]. intros [= ->]. split; [lia|done].
Qed.

Lemma getitem_out_of_range {A} (l : list A) (i : Z) :
  i < - Z.of_nat (length l) \/ Z.of_nat (length l) <= i ->
  getitem l i = Raise IndexError.
Proof.
  intros H. unfold getitem.
  destruct (Z.ltb_spec i (- Z.of_nat (length l))); [done|].
  destruct (Z.leb_spec (Z.of_nat (length l)) i); [done|lia].
Qed.


Lemma length_slice {A} (a b : nat) (l : list A) :
  (b <= length l)%nat -> length (slice a b l) = (b - a)%nat.
Proof.
  intros H. unfold slice. rewrite length_take, length_drop. lia.
Qed.

Lemma unpack_int_length (signed : bool) (n : nat) (bs : list byte) :
  length bs = n ->
  unpack_int signed n bs
  = Ok (if signed then to_signed n (le_combine bs) else le_combine bs).
Proof. intros H. unfold unpack_int. by rewrite H, Nat.eqb_refl. Qed.

Lemma to_signed_range (n : nat) (u : Z) :
  (0 < n)%nat -> 0 <= u < 2 ^ (8 * Z.of_nat n) ->
  - 2 ^ (8 * Z.of_nat n - 1) <= to_signed n u < 2 ^ (8 * Z.of_nat n - 1).
Proof.
  intros Hn Hu. unfold to_signed.
  set (h := 2 ^ (8 * Z.of_nat n - 1)) in *.
  assert (Hp : 2 ^ (8 * Z.of_nat n) = 2 * h).
  { unfold h. rewrite <- Z.pow_succ_r by lia. f_equal. lia. }
  destruct (Z.ltb_spec u h); lia.
Qed.

(** ** The digital factor of a spike channel *)

(** C5: in a spike-channel record of the extended header of an event file,
    the signed 16-bit field of the digital factor decodes to the float
    152592.547 when it holds 21516 and to its own value otherwise; the new
    descriptor is appended to the table. *)
Theorem digital_factor_decoding (ExtendedHeader : list byte)
    (info labels : list (gmap string pyval))
    (Htag : slice 0 8 ExtendedHeader = list_byte_of_string "NEUEVWAV")
    (Hlen : length ExtendedHeader = 32%nat) :
  let df := to_signed 2 (le_combine (slice 12 14 ExtendedHeader)) in
  exists elec,
    read_packet ExtendedHeader (info, labels) = Ok ((info ++ [elec])%list, labels)
    /\ - 32768 <= df < 32768
    /\ elec !! "DigitalFactor"
       = Some (if df =? 21516 then VFloat (152592547 # 1000) else VInt df).
Proof.
  intros df. unfold read_packet. rewrite Htag.
  change (decode_utf8 (list_byte_of_string "NEUEVWAV")) with (Ok "NEUEVWAV").
  cbn [mbind result_bind]. change (String.eqb "NEUEVWAV" "NEUEVWAV") with true.
  cbn match. unfold read_NEUEVWAV, unpack_H, unpack_h.
  rewrite !unpack_int_length by (rewrite length_slice; lia).
  cbn [mbind result_bind].
  destruct (lookup_lt_is_Some_2 ExtendedHeader 10) as [bank Hbank]; [lia|].
  destruct (lookup_lt_is_Some_2 ExtendedHeader 11) as [pin Hpin]; [lia|].
  destruct (lookup_lt_is_Some_2 ExtendedHeader 20) as [units Hunits]; [lia|].
  destruct (lookup_lt_is_Some_2 ExtendedHeader 21) as [wf Hwf]; [lia|].
  rewrite (getitem_nat _ 10 _ Hbank : getitem ExtendedHeader 10 = _),
    (getitem_nat _ 11 _ Hpin : getitem ExtendedHeader 11 = _),
    (getitem_nat _ 20 _ Hunits : getitem ExtendedHeader 20 = _),
    (getitem_nat _ 21 _ Hwf : getitem ExtendedHeader 21 = _).
  cbn [mbind result_bind].
  eexists. split; [reflexivity|]. split.
  - apply (to_signed_range 2); [lia|].
    pose proof (le_combine_range (slice 12 14 ExtendedHeader)) as H.
    rewrite length_slice in H by lia. exact H.
  - by simplify_map_eq.
Qed.

(** A spike-channel record whose digital factor holds 21516. *)
Definition overflowing_record : list byte :=
  list_byte_of_string "NEUEVWAV" ++ le_split 2 1 ++ le_split 1 1 ++ le_split 1 1
  ++ le_split 2 21516 ++ le_split 2 0 ++ le_split 2 0 ++ le_split 2 0
  ++ le_split 1 0 ++ le_split 1 48 ++ replicate 10 "000"%byte.

Lemma digital_factor_decoding_witness :
  exists elec,
    read_packet overflowing_record ([], []) = Ok ([elec], [])
    /\ elec !! "DigitalFactor" = Some (VFloat (152592547 # 1000)).
Proof.
  destruct (digital_factor_decoding overflowing_record [] [] eq_refl eq_refl)
    as (elec & H1 & _ & H2).
  exists elec. split; [exact H1 | exact H2].
Defined.

(** ** Reads, seeks and slices *)

Lemma f_read_Ok (n : Z) (f f' : file) (bs : list byte) :
  f_read n f = Ok (bs, f') ->
  bs = (if n <? 0 then drop (f_pos f) (f_bytes f)
        else take (Z.to_nat n) (drop (f_pos f) (f_bytes f)))
  /\ f' = mkfile (f_bytes f) (f_pos f + length bs).
Proof. unfold f_read. by intros [= <- <-]. Qed.

Lemma f_tell_Ok (f f' : file) (p : Z) :
  f_tell f = Ok (p, f') -> p = Z.of_nat (f_pos f) /\ f' = f.
Proof. unfold f_tell. by intros [= <- <-]. Qed.

Lemma f_seek_Ok (offset : Z) (w : whence) (f f' : file) (u : unit) :
  f_seek offset w f = Ok (u, f') ->
  let target :=
    match w with
    | SEEK_SET => offset
    | SEEK_CUR => Z.of_nat (f_pos f) + offset
    | SEEK_END => Z.of_nat (length (f_bytes f)) + offset
    end in
  0 <= target /\ f' = mkfile (f_bytes f) (Z.to_nat target).
Proof.
  unfold f_seek. cbv zeta. destruct u.
  match goal with |- context [?t <? 0] => destruct (Z.ltb_spec t 0) end;
    [done|]. intros [= <-]. done.
Qed.


Lemma slice_take {A} (a b n : nat) (l : list A) :
  (b <= n)%nat -> slice a b (take n l) = slice a b l.
Proof.
  intros H. unfold slice.
  rewrite skipn_firstn_comm, take_take. f_equal. lia.
Qed.

Lemma slice_drop {A} (a b k : nat) (l : list A) :
  slice a b (drop k l) = slice (k + a) (k + b) l.
Proof.
  unfold slice. rewrite drop_drop. f_equal. lia.
Qed.

Ltac inv_io :=
  repeat match goal with
  | H : lift _ _ = Ok _ |- _ => apply lift_Ok in H as [H ->]
  | H : f_read _ _ = Ok _ |- _ => apply f_read_Ok in H as [-> ->]
  | H : f_tell _ = Ok _ |- _ => apply f_tell_Ok in H as [-> ->]
  | H : f_seek _ _ _ = Ok _ |- _ =>
      let Hge := fresh "Hseek" in
      apply f_seek_Ok in H as [Hge ->]; cbn [f_bytes f_pos] in Hge
  | H : mret _ _ = Ok _ |- _ => injection H as <- <-
  end.

Lemma mapM_result_length {A B} (g : A -> result B) (l : list A) (l' : list B) :
  mapM g l = Ok l' -> length l' = length l.
Proof.
  revert l'. induction l as [|x l IH]; intros l' H; simpl in H.
  - by injection H as <-.
  - repeat inv_step H. injection H as <-. simpl. f_equal. by apply IH.
Qed.

Lemma f_read_pos (n : Z) (f f' : file) (bs : list byte) :
  f_read n f = Ok (bs, f') ->
  f_bytes f' = f_bytes f /\ f_pos f' = (f_pos f + length bs)%nat.
Proof. unfold f_read. by intros [= <- <-]. Qed.

Lemma f_seek_pos (offset : Z) (w : whence) (f f' : file) (u : unit) :
  f_seek offset w f = Ok (u, f') ->
  f_bytes f' = f_bytes f
  /\ 0 <= Z.of_nat (f_pos f')
  /\ Z.of_nat (f_pos f')
     = match w with
       | SEEK_SET => offset
       | SEEK_CUR => Z.of_nat (f_pos f) + offset
       | SEEK_END => Z.of_nat (length (f_bytes f)) + offset
       end.
Proof.
  intros H. apply f_seek_Ok in H as [H ->]. cbn [f_bytes f_pos].
  split; [done|]. split; lia.
Qed.

Lemma unpack_unsigned_range (n : nat) (bs : list byte) (v : Z) :
  unpack_int false n bs = Ok v -> 0 <= v < 2 ^ (8 * Z.of_nat n).
Proof.
  unfold unpack_int. destruct (Nat.eqb_spec (length bs) n) as [<-|]; [|done].
  intros [= <-]. apply le_combine_range.
Qed.

(** The loop over the packets reads forward. *)
Ltac inv_pos :=
  repeat match goal with
  | H : lift _ _ = Ok _ |- _ => apply lift_Ok in H as [H ->]
  | H : f_read _ _ = Ok _ |- _ =>
      let Hb := fresh "Hbytes" in let Hp := fresh "Hpos" in
      apply f_read_pos in H as [Hb Hp]
  | H : f_tell _ = Ok _ |- _ => apply f_tell_Ok in H as [-> ->]
  | H : f_seek _ _ _ = Ok _ |- _ =>
      let Hb := fresh "Hbytes" in let Hp := fresh "Hpos" in
      let Hge := fresh "Hseek" in
      apply f_seek_pos in H as (Hb & Hge & Hp)
  | H : mret _ _ = Ok _ |- _ => injection H as <- <-
  end.

Lemma data_packets_spec (bound : nat) (n EOF : Z) (bo dp : option Z)
    (f f' : file) (r : option Z * option Z) :
  data_packets bound n EOF bo dp f = Ok (r, f') ->
  0 <= n ->
  (bo = None /\ dp = None /\ Z.of_nat (f_pos f) < EOF)
  \/ (exists b d, bo = Some b /\ dp = Some d /\ 0 < n /\ 0 <= d
      /\ 0 <= b <= Z.of_nat (f_pos f)
      /\ (EOF <= Z.of_nat (f_pos f) -> EOF < b + 2 * n * (d + 1))) ->
  exists b d, r = (Some b, Some d) /\ 0 < n /\ 0 <= b /\ 0 <= d
              /\ EOF < b + 2 * n * (d + 1).
Proof.
  revert bo dp f. induction bound as [|bound IH]; intros bo dp f H Hn Hinv.
  - cbn [data_packets] in H. inv_step H. inv_io.
    destruct (Z.ltb_spec (Z.of_nat (f_pos f)) EOF) as [Hlt|Hge]; [done|].
    inv_io. destruct Hinv as [(_ & _ & ?)|(b & d & -> & -> & ? & ? & ? & Hend)];
      [lia|]. exists b, d. repeat split; lia.
  - cbn [data_packets] in H. inv_step H. inv_io.
    destruct (Z.ltb_spec (Z.of_nat (f_pos f)) EOF) as [Hlt|Hge].
    + do 2 inv_step H.
      match type of H with context [negb (?x =? 1)] =>
        destruct (Z.eqb_spec x 1) as [Hflag|Hflag] end; cbn [negb] in H.
      * repeat inv_step H. inv_pos.
        match goal with
        | Hd : unpack_I _ = Ok ?D,
          Hp : Z.of_nat (f_pos ?g') = Z.of_nat (f_pos ?g) + ?D * n * 2,
          Hq : int_truediv _ _ = Ok _ |- _ =>
            apply unpack_unsigned_range in Hd; unfold int_truediv in Hq;
            destruct (Z.eqb_spec (n * 2) 0) as [?|Hnz]; [done|];
            injection Hq as <-;
            replace (Z.of_nat (f_pos g') - Z.of_nat (f_pos g))
              with (D * (n * 2)) in H by lia;
            rewrite Z.quot_mul in H by lia;
            apply IH in H; [done|done|]; right;
            eexists _, D; split; [done|]; split; [done|]; repeat split; lia
        end.
      * repeat inv_step H. inv_pos.
        destruct Hinv as [(-> & _ & _)|(b & d & -> & -> & ? & ? & ? & Hend)];
          [done|].
        match goal with
        | Hb : from_option _ _ (Some b) = Ok ?x,
          Hq : int_truediv (EOF - ?x) _ = Ok _ |- _ =>
            cbn in Hb; injection Hb as <-; unfold int_truediv in Hq;
            destruct (Z.eqb_spec (n * 2) 0) as [?|Hnz]; [done|];
            injection Hq as <-
        end.
        exists b, (Z.quot (EOF - b) (n * 2)).
        rewrite Z.quot_div_nonneg by lia.
        pose proof (Z.mul_succ_div_gt (EOF - b) (n * 2)).
        pose proof (Z.div_pos (EOF - b) (n * 2)).
        repeat split; try lia.
    + inv_io. destruct Hinv as [(_ & _ & ?)|(b & d & -> & -> & ? & ? & ? & Hend)];
        [lia|]. exists b, d. repeat split; lia.
Qed.
Lemma decode_utf8_Ok (bs : list byte) (s : string) :
  decode_utf8 bs = Ok s -> bs = list_byte_of_string s.
Proof.
  unfold decode_utf8. destruct (utf8_valid bs); [|done].
  intros [= <-]. by rewrite list_byte_of_string_of_list_byte.
Qed.

Lemma assert_Ok (c : bool) (u : unit) : assert c = Ok u -> c = true.
Proof. by destruct c. Qed.

Lemma f_read_nat (n : nat) (f f' : file) (bs : list byte) :
  f_read (Z.of_nat n) f = Ok (bs, f') ->
  bs = take n (drop (f_pos f) (f_bytes f)).
Proof.
  intros H. apply f_read_Ok in H as [-> _].
  destruct (Z.ltb_spec (Z.of_nat n) 0); [lia|]. by rewrite Nat2Z.id.
Qed.

(** What a successful reading of a continuous file tells about the file. *)
Lemma read_neuralcd_Ok (astimezone : datetime -> tzinfo -> result datetime)
    (fs : filesystem) (fn : string) (h : nsx_hdr) :
  _read_neuralcd astimezone fs fn = Ok h ->
  exists bytes d d',
    fs !! fn = Some bytes
    /\ unpack_time (slice 294 310 bytes) = Ok (DateTimeRaw h)
    /\ datetime_of_time (DateTimeRaw h) (Some utc) = Ok d
    /\ astimezone d Eastern = Ok d'
    /\ DateTime h = replace_tzinfo_None d'
    /\ length (ElectrodesInfo h) = Z.to_nat (ChannelCount h)
    /\ 0 < ChannelCount h /\ 0 <= BOData h /\ 0 <= DataPoints h
    /\ Z.of_nat (length bytes)
       < BOData h + 2 * ChannelCount h * (DataPoints h + 1).
Proof.
  intros H. unfold _read_neuralcd in H.
  apply with_open_Ok in H as (bytes & f' & Hfs & H).
  repeat inv_step H.
  match type of H with context [?a <=? ?b] =>
    destruct (Z.leb_spec a b) as [Hle|Hgt]; [done|] end.
  repeat inv_step H.
  repeat match goal with
  | H : lift _ _ = Ok _ |- _ => apply lift_Ok in H as [H ->]
  | H : f_tell _ = Ok _ |- _ => apply f_tell_Ok in H as [-> ->]
  | H : mret _ _ = Ok _ |- _ => injection H as <- <-
  end.
  cbn [DateTimeRaw DateTime ElectrodesInfo ChannelCount BOData DataPoints].
  match goal with
  | Hmagic : f_read 8 _ = Ok (?a, ?f), Hdec : decode_utf8 ?a = Ok ?s,
    Has : assert (String.eqb ?s _) = _, Hbasic : f_read 306 ?f = Ok (?b, _) |- _ =>
      pose proof (f_read_nat 8 _ _ _ Hmagic) as Ha;
      apply f_read_pos in Hmagic as [Hb0 Hp0];
      apply decode_utf8_Ok in Hdec; apply assert_Ok, String.eqb_eq in Has;
      subst s; cbn [f_bytes f_pos] in *;
      pose proof (f_read_nat 306 _ _ _ Hbasic) as Hbasic';
      apply f_read_pos in Hbasic as [Hb1 Hp1];
      rewrite Hb0, Hp0, Hdec in Hbasic'; cbn [length list_byte_of_string] in Hbasic'
  end.
  change (0 + length (list_byte_of_string "NEURALCD"))%nat with 8%nat in Hbasic'.
  match goal with
  | Ht : unpack_time (slice 286 302 _) = _ |- _ =>
      rewrite Hbasic', slice_take, slice_drop in Ht by lia
  end.
  match goal with
  | Hm : mapM _ _ = Ok _ |- _ =>
      apply mapM_result_length in Hm; rewrite length_seq in Hm
  end.
  match goal with
  | Hc : unpack_I (slice 302 306 _) = Ok ?n,
    He : f_seek 0 SEEK_END _ = Ok (_, ?g),
    Hb : f_seek _ SEEK_SET ?g = Ok _,
    Hr : f_read (?n * 66) _ = Ok _,
    Hd : data_packets _ ?n _ None None _ = Ok (?r, _),
    H1 : from_option _ _ (?r).1 = _, H2 : from_option _ _ (?r).2 = _ |- _ =>
      apply unpack_unsigned_range in Hc;
      apply f_read_pos in Hr as [Hb2 Hp2];
      apply f_seek_pos in He as (Hb3 & _ & Hp3);
      apply f_seek_pos in Hb as (Hb4 & _ & Hp4);
      apply data_packets_spec in Hd as (b & d & -> & ? & ? & ? & ?);
        [|lia|left; repeat split; lia];
      cbn in H1, H2; injection H1 as <-; injection H2 as <-
  end.
  exists bytes. eexists _, _. repeat split; try done; try lia.
  rewrite Hp3 in *. rewrite Hb2, Hb1, Hb0 in *. lia.
Qed.
(** What a successful reading of an event file tells about the file. *)
Lemma read_neuralev_Ok (fs : filesystem) (fn : string)
    (r : nev_hdr * list (gmap string pyval) * list (gmap string pyval)) :
  _read_neuralev fs fn = Ok r ->
  exists bytes,
    fs !! fn = Some bytes
    /\ unpack_time (slice 28 44 bytes) = Ok (nev_DateTimeRaw r.1.1)
    /\ datetime_of_time (nev_DateTimeRaw r.1.1) None = Ok (nev_DateTime r.1.1).
Proof.
  intros H. unfold _read_neuralev in H.
  inv_step H.
  match goal with
  | Hw : with_open _ _ _ = Ok _ |- _ =>
      apply with_open_Ok in Hw as (bytes & f' & Hfs & Hw); repeat inv_step Hw
  end.
  repeat match goal with
  | H : lift _ _ = Ok _ |- _ => apply lift_Ok in H as [H ->]
  | H : mret _ _ = Ok _ |- _ => injection H as <- <-
  end.
  match type of H with (let '(_, _) := ?st in _) = _ =>
    destruct st as [info labels] end.
  inv_step H. injection H as <-. cbn [nev_DateTimeRaw nev_DateTime fst].
  match goal with
  | Hr : f_read 336 _ = Ok _, Ht : unpack_time _ = Ok _ |- _ =>
      apply (f_read_nat 336) in Hr; cbn [f_bytes f_pos] in Hr;
      rewrite Hr, slice_take, slice_drop in Ht by lia
  end.
  by exists bytes.
Qed.

(** ** The start time of a recording *)

(** [d] with the zone [z] attached. *)
Definition with_tz (z : tzinfo) (d : datetime) : datetime :=
  mkdatetime (year d) (month d) (day d) (hour d) (minute d) (second d)
             (microsecond d) (Some z).

Lemma datetime_of_time_tz (time : list Z) (z : tzinfo) (d : datetime) :
  datetime_of_time time None = Ok d ->
  datetime_of_time time (Some z) = Ok (with_tz z d).
Proof.
  unfold datetime_of_time, new_datetime.
  destruct (_ && _); [|done]. by intros [= <-].
Qed.

(** C6: the start time of a continuous file is made of the eight packed
    16-bit fields at offset 294 (the day of the week left out) taken as UTC,
    converted to the Eastern zone and stripped of its zone; the start time of
    an event file is made of the same fields, at offset 28, taken as they
    are.  For equal fields, the first is the conversion of the second. *)
Theorem packed_time_zones (astimezone : datetime -> tzinfo -> result datetime)
    (fs : filesystem) (cd ev : string) (h : nsx_hdr)
    (r : nev_hdr * list (gmap string pyval) * list (gmap string pyval))
    (Hcd : _read_neuralcd astimezone fs cd = Ok h)
    (Hev : _read_neuralev fs ev = Ok r) :
  (exists bytes d d',
     fs !! cd = Some bytes
     /\ unpack_time (slice 294 310 bytes) = Ok (DateTimeRaw h)
     /\ datetime_of_time (DateTimeRaw h) (Some utc) = Ok d
     /\ astimezone d Eastern = Ok d'
     /\ DateTime h = replace_tzinfo_None d')
  /\ (exists bytes,
        fs !! ev = Some bytes
        /\ unpack_time (slice 28 44 bytes) = Ok (nev_DateTimeRaw r.1.1)
        /\ datetime_of_time (nev_DateTimeRaw r.1.1) None
           = Ok (nev_DateTime r.1.1))
  /\ (DateTimeRaw h = nev_DateTimeRaw r.1.1 ->
      exists d', astimezone (with_tz utc (nev_DateTime r.1.1)) Eastern = Ok d'
                 /\ DateTime h = replace_tzinfo_None d').
Proof.
  apply read_neuralcd_Ok in Hcd
    as (bytes & d & d' & Hfs & Hraw & Hd & Hz & Hdt & _).
  apply read_neuralev_Ok in Hev as (bytes' & Hfs' & Hraw' & Hd').
  split; [by exists bytes, d, d'|]. split; [by exists bytes'|].
  intros Heq. exists d'. split; [|done].
  rewrite <- Heq in Hd'. apply (datetime_of_time_tz _ utc) in Hd'.
  rewrite Hd in Hd'. by injection Hd' as <-.
Qed.

Lemma packed_time_zones_witness :
  exists h r,
    _read_neuralcd Samples.five_hours_west Samples.both_fs "rec.ns4" = Ok h
    /\ _read_neuralev Samples.both_fs "rec.nev" = Ok r
    /\ DateTimeRaw h = nev_DateTimeRaw r.1.1
    /\ exists d',
         Samples.five_hours_west (with_tz utc (nev_DateTime r.1.1)) Eastern
         = Ok d'
         /\ DateTime h = replace_tzinfo_None d'.
Proof.
  destruct (_read_neuralcd Samples.five_hours_west Samples.both_fs "rec.ns4")
    as [h|] eqn:Hcd; [|by vm_compute in Hcd].
  destruct (_read_neuralev Samples.both_fs "rec.nev")
    as [r|] eqn:Hev; [|by vm_compute in Hev].
  exists h, r. split; [done|]. split; [done|].
  destruct (packed_time_zones _ _ _ _ _ _ Hcd Hev) as (_ & _ & Hsame).
  assert (Heq : DateTimeRaw h = nev_DateTimeRaw r.1.1).
  { vm_compute in Hcd, Hev. injection Hcd as <-. injection Hev as <-.
    reflexivity. }
  split; [exact Heq | exact (Hsame Heq)].
Defined.

(** ** The header of a continuous or event file *)

(** C10: whenever [return_hdr] returns, for a continuous file as for an
    event file, the subject identifier of the header is the empty string. *)
Theorem subject_id_empty (astimezone : datetime -> tzinfo -> result datetime)
    (fs : filesystem) (self self' : BlackRock) (hdr : recording_hdr)
    (H : return_hdr astimezone fs self = Ok (hdr, self')) :
  subj_id hdr = EmptyString.
Proof.
  unfold return_hdr in H.
  destruct (String.eqb (substring 0 3 _) ".ns").
  - repeat inv_step H. by injection H as <- <-.
  - destruct (String.eqb _ ".nev"); [|done].
    repeat inv_step H. by injection H as <- <-.
Qed.

Lemma subject_id_empty_witness :
  exists hdr self' hdr2 self2,
    return_hdr Samples.five_hours_west Samples.both_fs
               (BlackRock_init "rec.ns4") = Ok (hdr, self')
    /\ subj_id hdr = EmptyString
    /\ return_hdr Samples.five_hours_west Samples.both_fs
                  (BlackRock_init "rec.nev") = Ok (hdr2, self2)
    /\ subj_id hdr2 = EmptyString.
Proof.
  destruct (return_hdr Samples.five_hours_west Samples.both_fs
              (BlackRock_init "rec.ns4")) as [[hdr self']|] eqn:H1;
    [|by vm_compute in H1].
  destruct (return_hdr Samples.five_hours_west Samples.both_fs
              (BlackRock_init "rec.nev")) as [[hdr2 self2]|] eqn:H2;
    [|by vm_compute in H2].
  exists hdr, self', hdr2, self2.
  split; [done|]. split; [exact (subject_id_empty _ _ _ _ _ H1)|].
  split; [done|]. exact (subject_id_empty _ _ _ _ _ H2).
Defined.

(** What [return_hdr] leaves in the instance for a continuous file, and
    what the header says about the file. *)
Lemma return_hdr_nsx (astimezone : datetime -> tzinfo -> result datetime)
    (fs : filesystem) (self self' : BlackRock) (hdr : recording_hdr) :
  return_hdr astimezone fs self = Ok (hdr, self') ->
  (splitext (filename self)).2 <> ".nev" ->
  exists bytes bo factor,
    fs !! filename self = Some bytes
    /\ filename self' = filename self
    /\ self_BOData self' = Some bo
    /\ self_factor self' = Some factor
    /\ length factor = length (chan_name hdr)
    /\ (0 < length factor)%nat
    /\ 0 <= bo
    /\ 0 <= n_samples hdr
    /\ Z.of_nat (length bytes)
       < bo + 2 * Z.of_nat (length factor) * (n_samples hdr + 1).
Proof.
  intros H Hext. unfold return_hdr in H.
  destruct (String.eqb (substring 0 3 _) ".ns").
  - repeat inv_step H. injection H as <- <-.
    cbn [filename self_BOData self_factor chan_name n_samples].
    match goal with
    | Hr : _read_neuralcd _ _ _ = Ok _, Hc : _convert_factor _ = Ok _ |- _ =>
        apply read_neuralcd_Ok in Hr
          as (bytes & _ & _ & Hfs & _ & _ & _ & _ & Hlen & ? & ? & ? & ?);
        apply convert_factor_length in Hc
    end.
    exists bytes. eexists _, _. repeat split; try done.
    + by rewrite length_fmap.
    + lia.
    + replace (Z.of_nat (length a0)) with (ChannelCount a) by lia. done.
  - destruct (String.eqb_spec (splitext (filename self)).2 ".nev"); [done|done].
Qed.

(** ** Reading the samples of a continuous file *)

Lemma length_chunks (n count : nat) (bs : list byte) :
  length (chunks n count bs) = count.
Proof.
  revert bs. induction count as [|c IH]; intros bs; simpl; [done|].
  by rewrite IH.
Qed.

Lemma f_seek_to (offset : Z) (w : whence) (f : file) :
  let target :=
    match w with
    | SEEK_SET => offset
    | SEEK_CUR => Z.of_nat (f_pos f) + offset
    | SEEK_END => Z.of_nat (length (f_bytes f)) + offset
    end in
  0 <= target ->
  f_seek offset w f = Ok (tt, mkfile (f_bytes f) (Z.to_nat target)).
Proof.
  intros target H. unfold f_seek. fold target.
  destruct (Z.ltb_spec target 0); [lia|done].
Qed.

(** A range of samples that is not empty and ends after the end of the
    file cannot be read: the seek to its start is refused, or the items that
    are left do not fill the shape. *)
Lemma read_nsx_past_end (fs : filesystem) (fn : string) (bytes : list byte)
    (bo : Z) (factor : list Q) (begsam endsam : Z) :
  fs !! fn = Some bytes ->
  0 <= bo -> begsam < endsam -> (0 < length factor)%nat ->
  Z.of_nat (length bytes) < bo + 2 * Z.of_nat (length factor) * endsam ->
  _read_nsx fs fn bo factor begsam endsam = Raise ValueError
  \/ _read_nsx fs fn bo factor begsam endsam = Raise IOError.
Proof.
  intros Hfs Hbo Hrange Hn Hshort. unfold _read_nsx, with_open. rewrite Hfs.
  set (n := Z.of_nat (length factor)) in *.
  unfold mbind, IO_bind.
  rewrite f_seek_to by (cbn; lia). cbn [f_bytes f_pos].
  destruct (Z.le_gt_cases 0 (Z.of_nat (Z.to_nat bo) + n * 2 * begsam))
    as [Hseek|Hseek].
  2: { right. unfold f_seek. cbn [f_bytes f_pos].
       destruct (Z.ltb_spec (Z.of_nat (Z.to_nat bo) + n * 2 * begsam) 0);
         [done|lia]. }
  left. rewrite f_seek_to by (cbn; lia). cbn [f_bytes f_pos].
  unfold fromfile_int16. cbn [f_bytes f_pos].
  destruct (Z.ltb_spec (n * (endsam - begsam)) 0) as [?|_]; [nia|].
  unfold lift, reshape_F. rewrite length_fmap, length_chunks.
  destruct (Z.ltb_spec (endsam - begsam) 0) as [?|_]; [lia|].
  rewrite length_drop.
  match goal with |- context [Z.of_nat ?k =? ?m] =>
    destruct (Z.eqb_spec (Z.of_nat k) m) as [Heq|Hne]; [|done] end.
  exfalso. revert Heq.
  set (p := Z.to_nat (Z.of_nat (Z.to_nat bo) + n * 2 * begsam)).
  assert (Hp : Z.of_nat p = bo + n * 2 * begsam) by (unfold p; nia).
  pose proof (Nat.Div0.mul_div_le (length bytes - p) 2) as Hd.
  assert (Hsum : n * 2 * begsam + 2 * (n * (endsam - begsam)) = 2 * n * endsam)
    by ring.
  assert (Hnn : 0 < n * (endsam - begsam)) by nia.
  clearbody p. revert Hd Hsum Hshort Hp Hnn. generalize
    (n * (endsam - begsam)) (2 * n * endsam)
    (n * 2 * begsam) ((length bytes - p) `div` 2)%nat. lia.
Qed.

Lemma rows_column_major (dat : list Z) (r c : nat) :
  length (rows (column_major dat r c)) = r
  /\ Forall (fun row => length row = c) (rows (column_major dat r c)).
Proof.
  unfold column_major. cbn [rows]. split.
  - by rewrite length_fmap, length_seq.
  - apply Forall_fmap, Forall_forall. intros i _. cbn.
    by rewrite length_fmap, length_seq.
Qed.

Lemma rows_scale_rows (factor : list Q) (dat : array2 Z) (c : nat) :
  length (rows dat) = length factor ->
  Forall (fun row => length row = c) (rows dat) ->
  length (rows (scale_rows factor dat)) = length factor
  /\ Forall (fun row => length row = c) (rows (scale_rows factor dat)).
Proof.
  intros Hlen Hrows. unfold scale_rows. cbn [rows]. split.
  - rewrite length_zip_with. lia.
  - apply Forall_lookup_2. intros i row Hi.
    apply lookup_zip_with_Some in Hi as (x & row0 & -> & _ & Hrow0).
    rewrite length_fmap. by eapply (Forall_lookup_1 _ _ _ _ Hrows).
Qed.

(** The failures of [_read_nsx]: the file is missing, a seek goes before
    the start of the file, or the items read do not fill the shape. *)
Lemma read_nsx_cases (fs : filesystem) (fn : string) (bo : Z)
    (factor : list Q) (begsam endsam : Z) :
  (exists data,
     _read_nsx fs fn bo factor begsam endsam = Ok data
     /\ length (rows data) = length factor
     /\ nrows data = length factor
     /\ (begsam <= endsam ->
         ncols data = Z.to_nat (endsam - begsam)
         /\ Forall (fun row => length row = Z.to_nat (endsam - begsam))
                   (rows data)))
  \/ _read_nsx fs fn bo factor begsam endsam = Raise IOError
  \/ _read_nsx fs fn bo factor begsam endsam = Raise ValueError.
Proof.
  unfold _read_nsx, with_open.
  destruct (fs !! fn) as [bytes|]; [|by right; left].
  unfold mbind, IO_bind, f_seek. cbn [f_bytes f_pos].
  destruct (bo <? 0); [by right; left|]. cbn [f_bytes f_pos].
  destruct (_ <? 0); [by right; left|].
  unfold fromfile_int16, lift. cbn [f_bytes f_pos].
  match goal with |- context [reshape_F ?d ?r ?c] =>
    generalize d; intros dat; unfold reshape_F end.
  destruct (Z.ltb_spec (endsam - begsam) 0) as [Hneg|Hpos].
  - destruct (_ || _); [by right; right|]. left. cbn. rewrite !Nat2Z.id.
    eexists. split; [done|].
    destruct (rows_column_major dat (length factor)
                (Z.to_nat (Z.of_nat (length dat) / Z.of_nat (length factor))))
      as [Hl Hr].
    split; [by apply (rows_scale_rows _ _ _ Hl Hr)|].
    split; [done|lia].
  - destruct (_ =? _); [|by right; right]. left. cbn. rewrite !Nat2Z.id.
    eexists. split; [done|].
    destruct (rows_column_major dat (length factor)
                (Z.to_nat (endsam - begsam))) as [Hl Hr].
    split; [by apply (rows_scale_rows _ _ _ Hl Hr)|].
    split; [done|]. intros _.
    split; [done|]. by apply (rows_scale_rows _ _ _ Hl Hr).
Qed.

(** An index is outside of [-n, n), for a single index or for one of the
    list. *)
Definition out_of_range (n : nat) (chan : selector) : Prop :=
  match chan with
  | ChanInt i => i < - Z.of_nat n \/ Z.of_nat n <= i
  | ChanList l => Exists (fun i => i < - Z.of_nat n \/ Z.of_nat n <= i) l
  end.

Lemma getitem_Raise {A} (l : list A) (i : Z) (e : exn) :
  getitem l i = Raise e -> e = IndexError.
Proof.
  unfold getitem. destruct (_ || _); [by intros [= <-]|].
  destruct (l !! _); [done|by intros [= <-]].
Qed.

Lemma mapM_getitem_out_of_range {A} (l : list A) (idx : list Z) :
  Exists (fun i => i < - Z.of_nat (length l) \/ Z.of_nat (length l) <= i) idx ->
  mapM (getitem l) idx = Raise IndexError.
Proof.
  induction 1 as [i idx Hi|i idx _ IH]; cbn [mapM].
  - by rewrite getitem_out_of_range.
  - destruct (getitem l i) as [x|e] eqn:E.
    + cbn. rewrite IH. done.
    + cbn. by apply getitem_Raise in E as ->.
Qed.

Lemma select_rows_out_of_range {A} (data : array2 A) (chan : selector) :
  out_of_range (length (rows data)) chan ->
  select_rows data chan = Raise IndexError.
Proof.
  destruct chan as [i|l]; cbn [out_of_range select_rows]; intros H.
  - by rewrite getitem_out_of_range.
  - by rewrite mapM_getitem_out_of_range.
Qed.

(** ** The shape of what [return_dat] returns *)

(** For a list of channels the result has two dimensions: as many rows as
    the list has indices, and one column for each sample of the range. *)
Lemma return_dat_list_shape (fs : filesystem) (self : BlackRock)
    (l : list Z) (begsam endsam : Z) (a : ndarray Q) :
  begsam <= endsam ->
  return_dat fs self (ChanList l) begsam endsam = Ok a ->
  shape a = [length l; Z.to_nat (endsam - begsam)].
Proof.
  intros Hrange H. unfold return_dat in H.
  destruct (String.eqb _ ".nev"); [done|].
  do 2 inv_step H.
  match type of H with _read_nsx ?fs ?fn ?bo ?fa ?b ?e ≫= _ = _ =>
    destruct (read_nsx_cases fs fn bo fa b e)
      as [(data & E & _ & _ & Hc)|[E|E]]; rewrite E in H; [|done|done] end.
  cbn [mbind result_bind select_rows] in H.
  destruct (mapM _ l) as [rs|]; [|done]. injection H as <-.
  cbn [shape nrows ncols]. by destruct (Hc Hrange) as [-> _].
Qed.

(** C1, at the single index: with one integer for the channel, what
    [return_dat] returns has one dimension only, the samples of that
    channel; its shape is [(last - first,)] and not [(1, last - first)]. *)
Theorem single_index_gives_vector (fs : filesystem) (self : BlackRock)
    (i begsam endsam : Z) (a : ndarray Q)
    (Hrange : begsam <= endsam)
    (H : return_dat fs self (ChanInt i) begsam endsam = Ok a) :
  exists v, a = Arr1 v /\ shape a = [Z.to_nat (endsam - begsam)].
Proof.
  unfold return_dat in H.
  destruct (String.eqb _ ".nev"); [done|].
  do 2 inv_step H.
  match type of H with _read_nsx ?fs ?fn ?bo ?fa ?b ?e ≫= _ = _ =>
    destruct (read_nsx_cases fs fn bo fa b e)
      as [(data & E & _ & _ & Hc)|[E|E]]; rewrite E in H; [|done|done] end.
  cbn [mbind result_bind select_rows] in H.
  destruct (getitem (rows data) i) as [row|] eqn:Hrow; [|done].
  injection H as <-. exists row. split; [done|]. cbn [shape].
  apply getitem_Ok in Hrow as [_ Hrow].
  destruct (Hc Hrange) as [_ Hrows].
  by rewrite (Forall_lookup_1 _ _ _ _ Hrows Hrow).
Qed.

(** The instance that [return_hdr] leaves for the sample with two
    channels. *)
Definition two_channels_reader : BlackRock :=
  mkBlackRock "rec.ns4" (Some 455) (Some [10000 # 65534; 10000 # 65534]%Q).

Lemma two_channels_reader_hdr :
  exists hdr,
    return_hdr Samples.five_hours_west Samples.two_channels_fs
               (BlackRock_init "rec.ns4") = Ok (hdr, two_channels_reader)
    /\ chan_name hdr = ["chan1"; "chan2"]
    /\ n_samples hdr = 4.
Proof. eexists. split; [vm_compute; reflexivity|]. by split. Qed.

Lemma single_index_gives_vector_witness :
  exists v,
    return_dat Samples.two_channels_fs two_channels_reader (ChanInt 0) 0 4
    = Ok (Arr1 v)
    /\ shape (Arr1 v) = [4%nat].
Proof.
  destruct (return_dat Samples.two_channels_fs two_channels_reader
              (ChanInt 0) 0 4) as [a|] eqn:H; [|by vm_compute in H].
  destruct (single_index_gives_vector _ _ 0 0 4 _ ltac:(lia) H)
    as (v & -> & Hshape).
  by exists v.
Defined.

(** The sample of the specification: both channels and the samples
    [0, 4) give two rows of four values, each the raw value times the scale
    5000 / 32767. *)
Lemma two_channels_matrix :
  return_dat Samples.two_channels_fs two_channels_reader (ChanList [0; 1]) 0 4
  = Ok (Arr2 (mkarray2 2 4
      [[(10000 # 65534) * inject_Z 32767; (10000 # 65534) * inject_Z 1;
        (10000 # 65534) * inject_Z (-1); (10000 # 65534) * inject_Z 100];
       [(10000 # 65534) * inject_Z (-32767); (10000 # 65534) * inject_Z 2;
        (10000 # 65534) * inject_Z (-2); (10000 # 65534) * inject_Z 200]]%Q)).
Proof. vm_compute. reflexivity. Qed.

(** ** Requests out of range *)

(** C3 (amended): after the header of a recording was returned, a request
    for a range of samples that is not empty and ends after the last sample
    raises ([ValueError], or [IOError] for a start before the file, or
    [NotImplementedError] for an event file), and so does a request for a
    channel whose index is not in [-len(chan_name), len(chan_name)); no
    array is returned. *)
Theorem read_out_of_range (astimezone : datetime -> tzinfo -> result datetime)
    (fs : filesystem) (self0 self : BlackRock) (hdr : recording_hdr)
    (Hhdr : return_hdr astimezone fs self0 = Ok (hdr, self)) :
  (forall chan begsam endsam,
     begsam < endsam -> n_samples hdr < endsam ->
     exists err, return_dat fs self chan begsam endsam = Raise err
                 /\ err <> LoopBound)
  /\ (forall chan begsam endsam,
        out_of_range (length (chan_name hdr)) chan ->
        exists err, return_dat fs self chan begsam endsam = Raise err
                    /\ err <> LoopBound).
Proof.
  assert (Hname : filename self = filename self0).
  { unfold return_hdr in Hhdr.
    destruct (String.eqb (substring 0 3 _) ".ns").
    - repeat inv_step Hhdr. by injection Hhdr as <- <-.
    - destruct (String.eqb _ ".nev"); [|done].
      repeat inv_step Hhdr. by injection Hhdr as <- <-. }
  destruct (String.eqb_spec (splitext (filename self0)).2 ".nev") as [Hnev|Hnsx].
  { split; intros chan begsam endsam; intros; exists NotImplementedError;
      (split; [|done]); unfold return_dat; rewrite Hname, Hnev; done. }
  apply return_hdr_nsx in Hhdr
    as (bytes & bo & factor & Hfs & _ & Hbo & Hfa & Hlen & Hpos & ? & ? & Hend);
    [|done].
  assert (Hdat : forall chan begsam endsam,
    return_dat fs self chan begsam endsam
    = _read_nsx fs (filename self) bo factor begsam endsam
      ≫= fun data => select_rows data chan).
  { intros. unfold return_dat. rewrite Hname.
    destruct (String.eqb_spec (splitext (filename self0)).2 ".nev"); [done|].
    by rewrite Hbo, Hfa. }
  split; intros chan begsam endsam; rewrite Hdat.
  - intros Hrange Hpast.
    destruct (read_nsx_past_end fs (filename self) bytes bo factor begsam endsam)
      as [E|E]; try done.
    + by rewrite Hname.
    + nia.
    + rewrite E. by exists ValueError.
    + rewrite E. by exists IOError.
  - intros Hout.
    destruct (read_nsx_cases fs (filename self) bo factor begsam endsam)
      as [(data & E & Hrows & _)|[E|E]]; rewrite E.
    + cbn [mbind result_bind]. exists IndexError. split; [|done].
      apply select_rows_out_of_range. by rewrite Hrows, Hlen.
    + by exists IOError.
    + by exists ValueError.
Qed.

Lemma read_out_of_range_witness :
  exists hdr,
    return_hdr Samples.five_hours_west Samples.two_channels_fs
               (BlackRock_init "rec.ns4") = Ok (hdr, two_channels_reader)
    /\ n_samples hdr = 4 /\ length (chan_name hdr) = 2%nat
    /\ (exists err,
          return_dat Samples.two_channels_fs two_channels_reader
                     (ChanList [0; 1]) 0 5 = Raise err /\ err <> LoopBound)
    /\ (exists err,
          return_dat Samples.two_channels_fs two_channels_reader
                     (ChanList [0; 2]) 0 4 = Raise err /\ err <> LoopBound).
Proof.
  destruct two_channels_reader_hdr as (hdr & Hhdr & Hchan & Hn).
  exists hdr. split; [exact Hhdr|]. split; [exact Hn|].
  split; [by rewrite Hchan|].
  destruct (read_out_of_range _ _ _ _ _ Hhdr) as [Hsam Hidx]. split.
  - apply Hsam; lia.
  - apply Hidx. rewrite Hchan. cbn. apply Exists_cons_tl, Exists_cons_hd. lia.
Defined.

(** C3, as stated, fails: with two channels and four samples, the index
    [-1] is outside of [0, 2) and the request returns the samples of the
    last channel; and the empty range [9, 9) ends after the last sample and
    the request returns an array without columns. *)
Lemma negative_index_accepted :
  exists hdr,
    return_hdr Samples.five_hours_west Samples.two_channels_fs
               (BlackRock_init "rec.ns4") = Ok (hdr, two_channels_reader)
    /\ length (chan_name hdr) = 2%nat /\ n_samples hdr = 4
    /\ return_dat Samples.two_channels_fs two_channels_reader (ChanInt (-1)) 0 4
       = return_dat Samples.two_channels_fs two_channels_reader (ChanInt 1) 0 4
    /\ (exists v, return_dat Samples.two_channels_fs two_channels_reader
                             (ChanInt (-1)) 0 4 = Ok (Arr1 v))
    /\ return_dat Samples.two_channels_fs two_channels_reader
                  (ChanList [0; 1]) 9 9
       = Ok (Arr2 (mkarray2 2 0 [[]; []])).
Proof.
  destruct two_channels_reader_hdr as (hdr & Hhdr & Hchan & Hn).
  exists hdr. split; [exact Hhdr|]. split; [by rewrite Hchan|].
  split; [exact Hn|]. split; [by vm_compute|].
  split; [eexists; vm_compute; reflexivity|]. by vm_compute.
Qed.

(** ** Opening a segmented recording *)

(** The name written in the test of [__init__] is bound nowhere: the
    parameter is spelled [ktlx_dir]. *)
Lemma Ktlx_dir_unbound (dir : string) :
  name (<["ktlx_dir" := ObjStr dir]> (<["self" := ObjOther]> ∅)) "Ktlx_dir"
  = Raise NameError.
Proof.
  unfold name.
  rewrite !lookup_union, !lookup_insert_ne, lookup_empty by done.
  reflexivity.
Qed.

Lemma isinstance_bound (dir : string) :
  name (<["ktlx_dir" := ObjStr dir]> (<["self" := ObjOther]> ∅)) "isinstance"
  = Ok ObjOther.
Proof.
  unfold name.
  rewrite !lookup_union, !lookup_insert_ne, lookup_empty by done.
  reflexivity.
Qed.

(** C8, on the code: building the decoder for a directory given as a
    string raises [NameError], whatever the directory holds, and so the
    opening of a segmented recording never returns a header. *)
Theorem Ktlx_open_raises
    (_read_hdr_dir : filesystem -> string -> result (string * ktlx_hdr))
    (_read_notes : filesystem -> Ktlx -> result string)
    (fs : filesystem) (dir : string) :
  Ktlx_init _read_hdr_dir fs dir = Raise NameError
  /\ Ktlx_open _read_hdr_dir _read_notes fs dir = Raise NameError.
Proof.
  assert (H : Ktlx_init _read_hdr_dir fs dir = Raise NameError).
  { unfold Ktlx_init. cbv zeta.
    rewrite isinstance_bound, Ktlx_dir_unbound. reflexivity. }
  split; [exact H|]. unfold Ktlx_open. by rewrite H.
Qed.

(** With the name of the parameter in the test, a header comes back: the
    method [return_hdr] itself returns the tuple. *)
Lemma Ktlx_return_hdr_Ok (_read_notes : filesystem -> Ktlx -> result string)
    (fs : filesystem) (self : Ktlx) (orig : ktlx_hdr) (notes : string) :
  _orig self = Some orig -> _read_notes fs self = Ok notes ->
  exists subj_id,
    Ktlx_return_hdr _read_notes fs self
    = Ok (subj_id, creation_time orig, sample_freq orig, [EmptyString], 0,
          (orig, notes)).
Proof.
  intros Ho Hn. unfold Ktlx_return_hdr. rewrite Ho, Hn. cbn. eauto.
Qed.


(** ** The strings of [ktlx.py] *)

(** A tuple of [bytes] objects holds no [str]: [t.index] of a [str] raises
    [ValueError]. *)
Lemma index_bytes (bs : list byte) (x : string) :
  index ((fun b => Bytes [b]) <$> bs) (Str x) = Raise ValueError.
Proof.
  induction bs as [|b bs IH]; [done|].
  cbn [fmap list_fmap index py_eq]. fold (@fmap list _ byte data).
  by rewrite IH.
Qed.

Lemma make_str_bytes (bs : list byte) :
  _make_str ((fun b => Bytes [b]) <$> bs) = Raise ValueError.
Proof. unfold _make_str. by rewrite index_bytes. Qed.

Lemma join_text (ss : list string) :
  join (Str <$> ss) = Ok (foldr String.append EmptyString ss).
Proof.
  induction ss as [|s ss IH]; [done|].
  cbn [fmap list_fmap join foldr]. fold (@fmap list _ string data).
  by rewrite IH.
Qed.

(** On a tuple of [str], what the function is written for: the text before
    the first NUL. *)
Lemma make_str_text (pre rest : list string) :
  Forall (fun s => s <> NUL) pre ->
  _make_str (Str <$> (pre ++ NUL :: rest))
  = Ok (foldr String.append EmptyString pre).
Proof.
  intros Hpre. unfold _make_str.
  assert (Hi : index (Str <$> (pre ++ NUL :: rest)) (Str NUL)
               = Ok (length pre)).
  { induction Hpre as [|s pre Hs Hpre IH]; [done|].
    cbn [app fmap list_fmap index py_eq length].
    fold (@fmap list _ string data).
    destruct (String.eqb_spec s NUL) as [?|_]; [done|]. by rewrite IH. }
  rewrite Hi. cbn [mbind result_bind].
  rewrite fmap_app, take_app_length'; [apply join_text|].
  by rewrite length_fmap.
Qed.

(** A name of the header is never read: the tuple that [unpack] makes of
    the bytes read holds [bytes] objects. *)
Lemma read_name_Raise (n : nat) (f : file) :
  read_name n f
  = Raise (if decide (n <= length (f_bytes f) - f_pos f)%nat
           then ValueError else StructError).
Proof.
  unfold read_name, mbind, IO_bind, f_read.
  destruct (Z.ltb_spec (Z.of_nat n) 0) as [?|_]; [lia|]. rewrite Nat2Z.id.
  unfold lift, unpack_chars_of, unpack_chars.
  rewrite length_take, length_drop.
  destruct (decide _) as [H|H].
  - destruct (Nat.eqb_spec (n `min` (length (f_bytes f) - f_pos f)) n);
      [|exfalso; lia]. cbn [mbind result_bind]. by rewrite make_str_bytes.
  - destruct (Nat.eqb_spec (n `min` (length (f_bytes f) - f_pos f)) n);
      [exfalso; lia|done].
Qed.

(** ** The header of a segmented file *)

(** No file gives a header. *)
Lemma read_hdr_file_never (fs : filesystem) (ktlx_file : string)
    (hdr : ktlx_hdr) :
  _read_hdr_file fs ktlx_file <> Ok hdr.
Proof.
  intros H. unfold _read_hdr_file in H.
  apply with_open_Ok in H as (bs & f' & _ & H).
  do 12 inv_step H.
  match goal with
  | Hn : read_name 80 _ = Ok _ |- _ => by rewrite read_name_Raise in Hn
  end.
Qed.

(** The start of a header of the family: sixteen bytes, the schema 7, 8 or
    9, the base schema 1, three numbers of four bytes and the eighty bytes
    of the last name. *)
Definition header_start (bytes : list byte) : Prop :=
  (112 <= length bytes)%nat
  /\ (le_combine (slice 16 18 bytes) = 7 \/ le_combine (slice 16 18 bytes) = 8
      \/ le_combine (slice 16 18 bytes) = 9)
  /\ le_combine (slice 18 20 bytes) = 1.

Lemma read_int_at (signed : bool) (n : nat) (bytes : list byte) (pos : nat) :
  (pos + n <= length bytes)%nat ->
  read_int signed n (mkfile bytes pos)
  = Ok (if signed then to_signed n (le_combine (slice pos (pos + n) bytes))
        else le_combine (slice pos (pos + n) bytes),
        mkfile bytes (pos + n)).
Proof.
  intros H. unfold read_int, mbind, IO_bind, f_read. cbn [f_bytes f_pos].
  destruct (Z.ltb_spec (Z.of_nat n) 0) as [?|_]; [lia|]. rewrite Nat2Z.id.
  unfold lift, unpack_int_of, unpack_int.
  rewrite length_take, length_drop.
  destruct (Nat.eqb_spec (n `min` (length bytes - pos)) n) as [E|];
    [|exfalso; lia].
  rewrite E. unfold slice. by replace (pos + n - pos)%nat with n by lia.
Qed.

Lemma bind_IO_step {A B} (c : IO A) (k : A -> IO B) (f f1 : file) (a : A) :
  c f = Ok (a, f1) -> (c ≫= k) f = k a f1.
Proof. unfold mbind, IO_bind. by intros ->. Qed.

Lemma bind_IO_fail {A B} (c : IO A) (k : A -> IO B) (f : file) (e : exn) :
  c f = Raise e -> (c ≫= k) f = Raise e.
Proof. unfold mbind, IO_bind. by intros ->. Qed.

Lemma f_read_at (n : nat) (bytes : list byte) (pos : nat) :
  (pos + n <= length bytes)%nat ->
  f_read (Z.of_nat n) (mkfile bytes pos)
  = Ok (slice pos (pos + n) bytes, mkfile bytes (pos + n)).
Proof.
  intros H. unfold f_read. cbn [f_bytes f_pos].
  destruct (Z.ltb_spec (Z.of_nat n) 0) as [?|_]; [lia|]. rewrite Nat2Z.id.
  rewrite length_take, length_drop. unfold slice.
  replace (pos + n - pos)%nat with n by lia.
  by replace (n `min` (length bytes - pos))%nat with n by lia.
Qed.

(** On a file that starts as a header, the reading stops at the last name
    with the [ValueError] of [_make_str]. *)
Lemma read_hdr_file_ValueError (fs : filesystem) (ktlx_file : string)
    (bytes : list byte) :
  fs !! ktlx_file = Some bytes -> header_start bytes ->
  _read_hdr_file fs ktlx_file = Raise ValueError.
Proof.
  intros Hfile (Hlen & Hschema & Hbase).
  unfold _read_hdr_file, with_open. rewrite Hfile.
  erewrite bind_IO_step by reflexivity.
  erewrite bind_IO_step by reflexivity.
  change (f_read 16) with (f_read (Z.of_nat 16)).
  rewrite (bind_IO_step _ _ _ _ _ (f_read_at 16 bytes 0 ltac:(lia))).
  erewrite bind_IO_step by reflexivity.
  rewrite (bind_IO_step _ _ _ _ _ (read_int_at false 2 bytes 16 ltac:(lia))).
  assert (Hs : (le_combine (slice 16 18 bytes) =? 7)
               || (le_combine (slice 16 18 bytes) =? 8)
               || (le_combine (slice 16 18 bytes) =? 9) = true).
  { destruct Hschema as [-> | [-> | ->]]; reflexivity. }
  change (16 + 2)%nat with 18%nat. rewrite Hs.
  erewrite bind_IO_step by reflexivity.
  rewrite (bind_IO_step _ _ _ _ _ (read_int_at false 2 bytes 18 ltac:(lia))).
  change (18 + 2)%nat with 20%nat. rewrite Hbase.
  erewrite bind_IO_step by reflexivity.
  rewrite (bind_IO_step _ _ _ _ _ (read_int_at true 4 bytes 20 ltac:(lia))).
  rewrite (bind_IO_step _ _ _ _ _
             (read_int_at true 4 bytes (20 + 4) ltac:(lia))).
  rewrite (bind_IO_step _ _ _ _ _
             (read_int_at true 4 bytes (20 + 4 + 4) ltac:(lia))).
  rewrite (bind_IO_fail _ _ _ _ (read_name_Raise 80 _)). cbn [f_bytes f_pos].
  destruct (decide _); [done|exfalso; lia].
Qed.

(** ** The event byte of a sample *)

(** What one round of the loop over the samples does, whatever the text
    layer returns for the event byte. *)
Lemma read_sample_cases (text_read : Z -> IO string) (file_schema n_chan : Z)
    (abs_delta : string) (i : Z) (output : list (list Z)) (f : file) :
  read_sample text_read file_schema n_chan abs_delta i output f
  = match text_read 1 f with
    | Ok (eventbite, f') =>
        if String.eqb eventbite EmptyString then Ok (None, f')
        else Raise TypeError
    | Raise e => Raise e
    end.
Proof.
  unfold read_sample. unfold mbind at 1, IO_bind at 1.
  destruct (text_read 1 f) as [[eventbite f']|e]; [|done].
  cbn [py_eq]. by destruct (String.eqb eventbite EmptyString).
Qed.

(** C9, on the code: at the start of every sample one character is read
    from the file opened as text.  When nothing is left, the loop ends and
    the array decoded so far is returned.  When a character is read, zero
    or not, [hexlify] refuses the [str] with [TypeError]: the assertion on
    the event byte is never evaluated, and a sample whose event byte is
    zero is refused like any other. *)
Theorem event_byte_type_error (text_read : Z -> IO string)
    (file_schema n_chan : Z) (abs_delta : string)
    (i : nat) (samples : list nat) (output : list (list Z))
    (f f' : file) (eventbite : string)
    (Hread : text_read 1 f = Ok (eventbite, f')) :
  read_samples text_read file_schema n_chan abs_delta (i :: samples) output f
  = if String.eqb eventbite EmptyString then Ok (output, f')
    else Raise TypeError.
Proof.
  cbn [read_samples]. unfold mbind at 1, IO_bind at 1.
  rewrite read_sample_cases, Hread.
  by destruct (String.eqb eventbite EmptyString).
Qed.

Lemma event_byte_type_error_witness :
  read_samples Samples.ascii_read 7 2 (chr 128) [0%nat; 1%nat]
               [[0; 0]; [0; 0]] (mkfile Samples.erd_two_samples 4560)
  = Raise TypeError
  /\ read_samples Samples.ascii_read 7 2 (chr 128) [0%nat; 1%nat]
                  [[0; 0]; [0; 0]] (mkfile Samples.erd_two_samples 4574)
     = Ok ([[0; 0]; [0; 0]], mkfile Samples.erd_two_samples 4574).
Proof.
  split.
  - exact (event_byte_type_error Samples.ascii_read 7 2 (chr 128) 0 [1%nat]
             [[0; 0]; [0; 0]] (mkfile Samples.erd_two_samples 4560)
             (mkfile Samples.erd_two_samples 4561)
             (String Ascii.zero EmptyString) eq_refl).
  - exact (event_byte_type_error Samples.ascii_read 7 2 (chr 128) 0 [1%nat]
             [[0; 0]; [0; 0]] (mkfile Samples.erd_two_samples 4574)
             (mkfile Samples.erd_two_samples 4574)
             EmptyString eq_refl).
Defined.

(** ** The raw data of a segmented recording *)

(** No call of [_read_erd] returns an array: the reading of the header
    raises first. *)
Lemma read_erd_never (text_read : Z -> IO string) (fs : filesystem)
    (erd_file : string) (n_samples : Z) :
  exists e, _read_hdr_file fs erd_file = Raise e
            /\ _read_erd text_read fs erd_file n_samples = Raise e.
Proof.
  unfold _read_erd.
  destruct (_read_hdr_file fs erd_file) as [hdr|e] eqn:E.
  - by apply read_hdr_file_never in E.
  - by exists e.
Qed.

(** C4, on the code: a raw-data file is never decoded.  On a file that
    starts as a header of the family, [_read_erd] ends with the
    [ValueError] that [_make_str] raises on the last name; and should the
    loop over the samples be entered, no round of it would store a sample:
    a round ends the loop or raises. *)
Theorem read_erd_decodes_nothing (text_read : Z -> IO string)
    (fs : filesystem) (erd_file : string) (bytes : list byte)
    (n_samples : Z)
    (Hfile : fs !! erd_file = Some bytes)
    (Hstart : header_start bytes) :
  _read_erd text_read fs erd_file n_samples = Raise ValueError
  /\ forall file_schema n_chan abs_delta i output f output' f',
       read_sample text_read file_schema n_chan abs_delta i output f
       <> Ok (Some output', f').
Proof.
  split.
  - unfold _read_erd.
    by rewrite (read_hdr_file_ValueError fs erd_file bytes Hfile Hstart).
  - intros file_schema n_chan abs_delta i output f output' f'.
    rewrite read_sample_cases.
    destruct (text_read 1 f) as [[eventbite f1]|e]; [|done].
    by destruct (String.eqb eventbite EmptyString).
Qed.

Lemma erd_two_samples_start : header_start Samples.erd_two_samples.
Proof.
  split; [apply Nat.leb_le; by vm_compute|].
  split; [left|]; by vm_compute.
Qed.

Lemma read_erd_decodes_nothing_witness :
  _read_erd Samples.ascii_read Samples.erd_fs "rec.erd" 2 = Raise ValueError.
Proof.
  exact (proj1 (read_erd_decodes_nothing Samples.ascii_read Samples.erd_fs
                  "rec.erd" Samples.erd_two_samples 2 eq_refl
                  erd_two_samples_start)).
Defined.

(** ** The notes of a segmented recording *)

(** The first field of the first record is never decoded: [unpack] gets the
    [str] that the text layer returns. *)
Lemma read_field_cases (text_read : Z -> IO string) (f : file) :
  read_field text_read f
  = match text_read 4 f with
    | Ok _ => Raise TypeError
    | Raise e => Raise e
    end.
Proof.
  unfold read_field, mbind, IO_bind.
  by destruct (text_read 4 f) as [[s f']|e].
Qed.

(** The loop over the notes ends in its first round, so never at its
    bound. *)
Lemma read_notes_first_round {value : Type} (text_read : Z -> IO string)
    (eval : string -> option value) (bound : nat) (allnote : list note)
    (f : file) :
  read_notes text_read eval (S bound) allnote f
  = match text_read 4 f with
    | Ok _ => Raise TypeError
    | Raise e => Raise e
    end.
Proof.
  cbn [read_notes]. unfold mbind at 1, IO_bind at 1.
  rewrite read_field_cases. by destruct (text_read 4 f) as [[s f']|e].
Qed.

(** A record of the file of notes as it is written: the type, the two
    fields that follow the length, and the text with its two last
    bytes. *)
Record written_note : Type := mkwritten {
  w_type : Z;
  w_prev_length : Z;
  w_unused : Z;
  w_text : list byte }.

(** The bytes of a record: the header of four 32-bit fields, whose second
    is the length of the whole record, then the text. *)
Definition note_bytes (w : written_note) : list byte :=
  le_split 4 (w_type w) ++ le_split 4 (16 + Z.of_nat (length (w_text w)))
  ++ le_split 4 (w_prev_length w) ++ le_split 4 (w_unused w) ++ w_text w.

(** C7, on the code: no file of notes is read.  After the seek to the end
    of the header, the four characters of the first field come back from
    the text layer as a [str], and [unpack] refuses it with [TypeError],
    outside the [try] that skips a record; when the text layer cannot
    decode the bytes, its own exception comes out.  No record is kept or
    skipped, and no list of notes is returned. *)
Theorem read_ent_type_error {value : Type} (text_read : Z -> IO string)
    (eval : string -> option value) (fs : filesystem) (ent_file : string)
    (bytes : list byte)
    (Hfile : fs !! ent_file = Some bytes) :
  _read_ent text_read eval fs ent_file
  = match text_read 4 (mkfile bytes 352) with
    | Ok _ => Raise TypeError
    | Raise e => Raise e
    end.
Proof.
  unfold _read_ent, with_open. rewrite Hfile.
  erewrite bind_IO_step by reflexivity.
  erewrite bind_IO_step by reflexivity.
  rewrite read_notes_first_round. change (Z.to_nat 352) with 352%nat.
  cbn [f_bytes].
  destruct (text_read 4 (mkfile bytes 352)) as [[s f']|e]; reflexivity.
Qed.

(** A reading of the rewritten text for the samples: a text that starts
    with a square bracket is a value, any other is refused. *)
Definition bracket_eval (s : string) : option string :=
  match s with
  | String "[" _ => Some s
  | _ => None
  end.

(** Three records: a list, a text that is no expression, a list. *)
Definition three_notes : list written_note :=
  [mkwritten 1 0 0 (list_byte_of_string "(1, 2)..");
   mkwritten 1 24 0 (list_byte_of_string "oops..");
   mkwritten 2 22 0 (list_byte_of_string "(3)..")].

Definition three_notes_file : list byte :=
  replicate 352 "000"%byte ++ mjoin (note_bytes <$> three_notes)
  ++ le_split 4 0 ++ replicate 12 "000"%byte ++ list_byte_of_string "rest".

Lemma read_ent_type_error_witness :
  _read_ent Samples.ascii_read bracket_eval
            {[ "rec.ent" := three_notes_file ]} "rec.ent"
  = Raise TypeError.
Proof.
  exact (read_ent_type_error Samples.ascii_read bracket_eval
           {[ "rec.ent" := three_notes_file ]} "rec.ent" three_notes_file
           eq_refl).
Defined.

(** What the rewriting makes of the three texts, were they read: the
    second is not accepted by the reading of the samples. *)
Lemma three_notes_translated :
  (fun w => bracket_eval (translate (str_take
              (str_len (string_of_list_byte (w_text w)) - 2)
              (string_of_list_byte (w_text w))))) <$> three_notes
  = [Some "[1, 2]"; None; Some "[3]"].
Proof. reflexivity. Qed.
(** ** The bounds of the loops *)

Lemma bind_IO_Raise {A B} (c : IO A) (k : A -> IO B) (f : file) (e : exn) :
  (c ≫= k) f = Raise e ->
  c f = Raise e \/ exists a f1, c f = Ok (a, f1) /\ k a f1 = Raise e.
Proof.
  unfold mbind, IO_bind. destruct (c f) as [[a f1]|e']; [eauto|].
  intros [= ->]. by left.
Qed.

Lemma lift_Raise {A} (r : result A) (f : file) (e : exn) :
  lift r f = Raise e -> r = Raise e.
Proof. unfold lift. destruct r; [discriminate|by intros [= ->]]. Qed.

Lemma unpack_int_Raise (signed : bool) (n : nat) (bs : list byte) (e : exn) :
  unpack_int signed n bs = Raise e -> e = StructError.
Proof. unfold unpack_int. destruct (_ =? _)%nat; [done|]. by intros [= <-]. Qed.

Lemma int_truediv_Raise (a b : Z) (e : exn) :
  int_truediv a b = Raise e -> e = ZeroDivisionError.
Proof. unfold int_truediv. destruct (_ =? _); [|done]. by intros [= <-]. Qed.

Lemma f_seek_Raise (offset : Z) (w : whence) (f : file) (e : exn) :
  f_seek offset w f = Raise e -> e = IOError.
Proof. unfold f_seek. cbv zeta. destruct (_ <? _); [|done]. by intros [= <-]. Qed.

(** A step of a sequence of reads that raises: either the first read
    raises, which the goal excludes, or it returns and the rest raises. *)
Ltac raise_step H :=
  let a := fresh "a" in let f := fresh "f" in let Hs := fresh "Hs" in
  apply bind_IO_Raise in H as [H|(a & f & Hs & H)];
  [ first [ discriminate H
          | apply lift_Raise in H;
            first [ apply unpack_int_Raise in H; discriminate H
                  | apply int_truediv_Raise in H; discriminate H
                  | match type of H with from_option _ _ ?o = _ =>
                      destruct o; discriminate H end
                  | idtac ]
          | apply f_seek_Raise in H; discriminate H
          | idtac ]
  | ].

(** The loop over the data packets ends before its bound: every round moves
    the handle forward by nine bytes at least. *)
Lemma data_packets_bound (bound : nat) (n EOF : Z) :
  forall (bo dp : option Z) (f : file),
    0 <= n -> EOF - Z.of_nat (f_pos f) <= Z.of_nat bound ->
    data_packets bound n EOF bo dp f <> Raise LoopBound.
Proof.
  induction bound as [|bound IH]; intros bo dp f Hn Hb H;
    cbn [data_packets] in H; raise_step H; apply f_tell_Ok in Hs as [-> ->].
  - destruct (Z.ltb_spec (Z.of_nat (f_pos f)) EOF); [lia|done].
  - destruct (Z.ltb_spec (Z.of_nat (f_pos f)) EOF) as [Hlt|]; [|done].
    do 2 raise_step H.
    match type of H with context [negb (?x =? 1)] =>
      destruct (x =? 1); cbn [negb] in H end.
    + repeat raise_step H. inv_pos.
      repeat match goal with
      | Hu : unpack_B _ = Ok _ |- _ => apply unpack_int_Ok in Hu
      | Hu : unpack_I _ = Ok ?v |- _ =>
          pose proof (unpack_unsigned_range _ _ _ Hu); apply unpack_int_Ok in Hu
      end.
      apply IH in H; [done|done|]. nia.
    + repeat raise_step H. done.
Qed.

(** ** The values that [return_dat] returns *)







(** ** What an accepted continuous file looks like *)





(** ** Files with several data packets *)












(** ** The packets of the extended header of an event file *)




(** A table of one spike channel, as the sample event file gives it before
    its label record. *)
Definition one_spike_entry : gmap string pyval :=
  <["WaveformBytes" := VInt 48]> (<["Units" := VInt 0]>
  (<["LowThreshold" := VInt 0]> (<["HighThreshold" := VInt 0]>
  (<["EnergyThreshold" := VInt 0]>
  (<["DigitalFactor" := VFloat DigitalFactor_overflow]>
  (<["ConnectorPin" := VInt 1]> (<["ConnectorBank" := VStr "A"]>
  (<["ElectrodeID" := VInt 1]> ∅)))))))).


(** The sample event file: the spike channel gets its label. *)
Lemma one_spike_channel_labelled :
  exists hdr,
    _read_neuralev Samples.one_spike_channel_fs "rec.nev"
    = Ok (hdr, [<["ElectrodeLabel" := VStr "elec1"]> one_spike_entry], []).
Proof. eexists. vm_compute. reflexivity. Qed.
